(** * Slack slash-command backend ([cloud-function.py]): model and properties

    A shallow embedding of the Cloud Function that answers the Slack commands
    [/getinfo] and [/checkstatus], followed by the properties of its request
    pipeline: signature gate, input validation, parameter sanitisation,
    command routing and the two response formatters.

    Python values are modelled as the code has them: a [str] is a sequence of
    Unicode code points, a BigQuery cell is a tagged value, a response is the
    dictionary literal the code builds, and the effects of a request (log
    records, the signature check, the two BigQuery queries) are collected in a
    trace next to the result or the exception.  Logging calls do not
    raise, and an exception is either a [ValueError] or any other
    [Exception], which is all the handler's [except] clauses tell apart. *)

From Stdlib Require Import List String Ascii Bool NArith ZArith Lia.
From Stdlib Require Import DecimalString.
Import ListNotations.

Set Implicit Arguments.

Open Scope string_scope.
Open Scope list_scope.

(** ** Python strings *)

(** A Python [str] is a sequence of code points. *)
Definition codepoint := N.
Definition pystr := list codepoint.

(** An ASCII literal of the source, as a [pystr]. *)
Definition lit (s : string) : pystr :=
  map N_of_ascii (list_ascii_of_string s).

Fixpoint pystr_eqb (a b : pystr) : bool :=
  match a, b with
  | [], [] => true
  | x :: a', y :: b' => N.eqb x y && pystr_eqb a' b'
  | _, _ => false
  end.

Fixpoint startswith (p s : pystr) : bool :=
  match p, s with
  | [], _ => true
  | x :: p', y :: s' => N.eqb x y && startswith p' s'
  | _ :: _, [] => false
  end.

(** [needle in hay] on strings: [needle] occurs as a contiguous substring. *)
Fixpoint py_in (needle hay : pystr) : bool :=
  startswith needle hay
  || match hay with
     | [] => false
     | _ :: hay' => py_in needle hay'
     end.

(** [str.isspace] for one code point: the characters [str.strip()] and
    [str.split()] treat as whitespace. *)
Definition isspace (c : codepoint) : bool :=
  ((9 <=? c) && (c <=? 13) || (28 <=? c) && (c <=? 32)
   || (c =? 133) || (c =? 160) || (c =? 5760)
   || (8192 <=? c) && (c <=? 8202)
   || (c =? 8232) || (c =? 8233) || (c =? 8239) || (c =? 8287)
   || (c =? 12288))%N.

Fixpoint lstrip (s : pystr) : pystr :=
  match s with
  | [] => []
  | c :: s' => if isspace c then lstrip s' else s
  end.

Definition rstrip (s : pystr) : pystr := rev (lstrip (rev s)).

(** [s.strip()] *)
Definition py_strip (s : pystr) : pystr := rstrip (lstrip s).

(** [s.split()]: the maximal runs of non-whitespace characters, in order.
    [word] is the run being read. *)
Fixpoint split_from (word s : pystr) : list pystr :=
  match s with
  | [] => match word with [] => [] | _ => [word] end
  | c :: s' =>
      if isspace c
      then match word with
           | [] => split_from [] s'
           | _ => word :: split_from [] s'
           end
      else split_from (word ++ [c]) s'
  end.

Definition py_split (s : pystr) : list pystr := split_from [] s.

Definition is_upper (c : codepoint) : bool := ((65 <=? c) && (c <=? 90))%N.
Definition is_lower (c : codepoint) : bool := ((97 <=? c) && (c <=? 122))%N.
Definition is_digit (c : codepoint) : bool := ((48 <=? c) && (c <=? 57))%N.
Definition is_ascii (c : codepoint) : bool := (c <? 128)%N.

(** Lower-casing of an ASCII character. *)
Definition ascii_lower (c : codepoint) : codepoint :=
  if is_upper c then (c + 32)%N else c.

(** The character class [[a-zA-Z0-9\-_]] of the sanitising pattern. *)
Definition allowed (c : codepoint) : bool :=
  is_lower c || is_upper c || is_digit c || (c =? 45)%N || (c =? 95)%N.

(** [re.sub(r'[^a-zA-Z0-9\-_]', '', s)] *)
Definition re_sub_disallowed (s : pystr) : pystr := filter allowed s.

(** The class [[a-z0-9_-]] of the spec's sanitised parameter. *)
Definition lower_class (c : codepoint) : bool :=
  is_lower c || is_digit c || (c =? 45)%N || (c =? 95)%N.

(** Decimal digits of a natural number and of an integer ([str(int)]). *)
Definition digits (n : N) : pystr := lit (NilZero.string_of_uint (N.to_uint n)).

Definition str_int (z : Z) : pystr := lit (NilZero.string_of_int (Z.to_int z)).

(** [n] in decimal, padded with zeros on the left to [width] digits. *)
Definition zero_pad (width : nat) (n : N) : pystr :=
  let d := digits n in
  repeat 48%N (width - List.length d) ++ d.

(** ** BigQuery cells and rows *)

(** A [datetime.datetime] as BigQuery returns it for a TIMESTAMP cell
    (time-zone aware, UTC). *)
Record datetime := {
  year : N; month : N; day : N;
  hour : N; minute : N; second : N; microsecond : N
}.

(** [d.strftime("%d-%m-%Y at %H:%M UTC")]: day, month, hour and minute in
    two digits; the year as the C library of the Linux runtime prints [%Y],
    in decimal without padding (a year below 1000 has fewer than four
    digits). *)
Definition strftime (d : datetime) : pystr :=
  zero_pad 2 (day d) ++ lit "-" ++ zero_pad 2 (month d) ++ lit "-"
  ++ digits (year d) ++ lit " at "
  ++ zero_pad 2 (hour d) ++ lit ":" ++ zero_pad 2 (minute d) ++ lit " UTC".

(** [str(d)]: ISO format with a space separator and the UTC offset. *)
Definition str_datetime (d : datetime) : pystr :=
  zero_pad 4 (year d) ++ lit "-" ++ zero_pad 2 (month d) ++ lit "-"
  ++ zero_pad 2 (day d) ++ lit " "
  ++ zero_pad 2 (hour d) ++ lit ":" ++ zero_pad 2 (minute d) ++ lit ":"
  ++ zero_pad 2 (second d)
  ++ (if (microsecond d =? 0)%N then [] else lit "." ++ zero_pad 6 (microsecond d))
  ++ lit "+00:00".

(** The Python value of one cell of a result row: NULL, STRING, INT64, BOOL
    or TIMESTAMP. *)
Inductive value :=
| VNone
| VStr (s : pystr)
| VInt (z : Z)
| VBool (b : bool)
| VTimestamp (d : datetime).

(** Truth value of a cell, as [if v], [v and ...] and [v or ...] test it. *)
Definition truthy (v : value) : bool :=
  match v with
  | VNone => false
  | VStr s => match s with [] => false | _ => true end
  | VInt z => negb (z =? 0)%Z
  | VBool b => b
  | VTimestamp _ => true
  end.

(** [hasattr(v, 'strftime')] *)
Definition hasattr_strftime (v : value) : bool :=
  match v with
  | VTimestamp _ => true
  | _ => false
  end.

(** [str(v)], which is also how an f-string renders [v]. *)
Definition py_str (v : value) : pystr :=
  match v with
  | VNone => lit "None"
  | VStr s => s
  | VInt z => str_int z
  | VBool true => lit "True"
  | VBool false => lit "False"
  | VTimestamp d => str_datetime d
  end.

(** [f"{v or default}"] *)
Definition or_else (v : value) (default : pystr) : pystr :=
  if truthy v then py_str v else default.

(** A row of the instances query (lines 166-182).  [instance_console_url] is
    the query's [CONCAT(...)]: a string, or [None] when an operand is NULL. *)
Record instance_row := {
  instance_id : value;
  instance_name : value;
  project_id : value;
  status : value;
  zone : value;
  machine_type : value;
  creation_timestamp : value;
  instance_console_url : option pystr
}.

(** A row of the status query (lines 262-271). *)
Record status_row := {
  item_name : value;
  current_status : value;
  details : value;
  last_checked : value
}.

(** ** Response payloads *)

(** The dictionaries, lists and strings a response is built from.  A dict
    keeps its keys in insertion order. *)
#[warnings="-register-all"] Inductive json :=
| JStr (s : pystr)
| JBool (b : bool)
| JList (l : list json)
| JDict (d : list (string * json)).

(** [d[key]] on a dict: [None] stands for [KeyError]. *)
Definition dict_get (key : string) (j : json) : option json :=
  match j with
  | JDict d =>
      match find (fun kv => String.eqb (fst kv) key) d with
      | Some kv => Some (snd kv)
      | None => None
      end
  | _ => None
  end.

(** [j == s] for a string [s]. *)
Definition json_is_str (j : json) (s : pystr) : bool :=
  match j with
  | JStr s' => pystr_eqb s' s
  | _ => false
  end.

(** What the HTTP function returns to the framework: a dict (sent as JSON
    with status 200) or a [(body, status)] tuple. *)
Inductive response :=
| RDict (payload : json)
| RTuple (body : pystr) (status_code : Z).

(** ** Effects *)

Inductive level := DEBUG | INFO | WARNING | ERROR.

Inductive table := INSTANCES_TABLE | STATUS_CHECK_TABLE.

(** One observable action of a request: a log record (severity and source
    line of the logging call), a call of [SignatureVerifier.is_valid], or a
    BigQuery query against one of the two tables with its bound
    [@resource_name]. *)
Inductive event :=
| Log (lv : level) (line : nat)
| IsValid (secret body timestamp signature : pystr)
| Query (t : table) (resource_name : pystr).

(** Exceptions, as the handler's two [except] clauses tell them apart. *)
Inductive exn :=
| ValueError (msg : pystr)
| OtherException (msg : pystr).

(** A computation: the events it performed, and its result or the exception
    that ended it. *)
Definition M (A : Type) : Type := list event * (exn + A).

Definition ret {A} (a : A) : M A := ([], inr a).

Definition raise {A} (e : exn) : M A := ([], inl e).

Definition bind {A B} (m : M A) (k : A -> M B) : M B :=
  match m with
  | (tr, inl e) => (tr, inl e)
  | (tr, inr a) => let (tr', r) := k a in (tr ++ tr', r)
  end.

Definition emit (e : event) : M unit := ([e], inr tt).

Definition logging (lv : level) (line : nat) : M unit := emit (Log lv line).

Declare Scope py_scope.
Delimit Scope py_scope with py.
Notation "x <- m ;; k" := (bind m (fun x => k))
  (at level 61, m at next level, right associativity) : py_scope.
Notation "m ;; k" := (bind m (fun _ => k))
  (at level 61, right associativity) : py_scope.

Definition trace_of {A} (m : M A) : list event := fst m.
Definition result_of {A} (m : M A) : exn + A := snd m.

Definition is_query (e : event) : bool :=
  match e with
  | Query _ _ => true
  | _ => false
  end.

(** Request fields the handler reads.  [content_type], [slack_timestamp] and
    [slack_signature] are [request.headers.get] of [Content-Type],
    [X-Slack-Request-Timestamp] and [X-Slack-Signature]; [data] is
    [request.get_data(as_text=True)]; [form] is [request.form], the first
    value of a key being the one [get] returns.  The model does not tie
    [form] to [data]: what is proved holds for every pair of them. *)
Record Request := {
  content_type : option pystr;
  slack_timestamp : option pystr;
  slack_signature : option pystr;
  data : pystr;
  form : list (pystr * pystr)
}.

(** [d.get(key, default)] *)
Definition form_get (d : list (pystr * pystr)) (key default : pystr) : pystr :=
  match find (fun kv => pystr_eqb (fst kv) key) d with
  | Some kv => snd kv
  | None => default
  end.

(** [h == s] for a header value [h], which is [None] when the header is
    missing. *)
Definition header_is (h : option pystr) (s : pystr) : bool :=
  match h with
  | Some v => pystr_eqb v s
  | None => false
  end.

Definition header_or (h : option pystr) (default : pystr) : pystr :=
  match h with
  | Some v => v
  | None => default
  end.

(** [try: body except ValueError as ve: ... except Exception as e: ...] *)
Definition try_except {A} (body : M A)
    (on_value_error on_exception : pystr -> M A) : M A :=
  match body with
  | (tr, inl (ValueError ve)) => let (tr', r) := on_value_error ve in (tr ++ tr', r)
  | (tr, inl (OtherException e)) => let (tr', r) := on_exception e in (tr ++ tr', r)
  | (tr, inr a) => (tr, inr a)
  end.

(** ** Formatting helpers of the two lookups *)

Definition NEWLINE : pystr := [10%N].
Definition BULLET : pystr := [8226%N].
Definition INFORMATION_SIGN : pystr := [8505%N; 65039%N].
Definition LINK_SIGN : pystr := [128279%N].
Definition QUESTION_MARK_SIGN : pystr := [10067%N].
Definition CHECK_MARK : pystr := [9989%N].
Definition HOURGLASS : pystr := [9203%N].
Definition CROSS_MARK : pystr := [10060%N].

(** [v.strftime("%d-%m-%Y at %H:%M UTC")]; [None] where [v] has no such
    method. *)
Definition call_strftime (v : value) : option pystr :=
  match v with
  | VTimestamp d => Some (strftime d)
  | _ => None
  end.

(** Lines 206-210, with [ts] for [row.creation_timestamp]. *)
Definition formatted_time (ts : value) : pystr :=
  let formatted_time := lit "Not available" in
  if truthy ts && hasattr_strftime ts then
    match call_strftime ts with
    | Some s => s
    | None => formatted_time
    end
  else if truthy ts then py_str ts
  else formatted_time.

(** Lines 295-299, with [ts] for [row.last_checked]. *)
Definition last_checked_time (ts : value) : pystr :=
  let last_checked_time := lit "Not available" in
  if truthy ts && hasattr_strftime ts then
    match call_strftime ts with
    | Some s => s
    | None => last_checked_time
    end
  else if truthy ts then py_str ts
  else last_checked_time.

(** Lines 213-223. *)
Definition message_text (row : instance_row) : pystr :=
  INFORMATION_SIGN ++ lit " Information for *"
    ++ or_else (instance_name row) (lit "N/A")
    ++ lit "* (ID: *" ++ or_else (instance_id row) (lit "N/A") ++ lit "*):" ++ NEWLINE
  ++ lit "   " ++ BULLET ++ lit " Project: *"
    ++ or_else (project_id row) (lit "N/A") ++ lit "*" ++ NEWLINE
  ++ lit "   " ++ BULLET ++ lit " Status: *"
    ++ or_else (status row) (lit "N/A") ++ lit "*" ++ NEWLINE
  ++ lit "   " ++ BULLET ++ lit " Zone: *"
    ++ or_else (zone row) (lit "N/A") ++ lit "*" ++ NEWLINE
  ++ lit "   " ++ BULLET ++ lit " Machine Type: *"
    ++ or_else (machine_type row) (lit "N/A") ++ lit "*" ++ NEWLINE
  ++ lit "   " ++ BULLET ++ lit " Created/Updated: _"
    ++ formatted_time (creation_timestamp row) ++ lit "_".

Definition section_block (text : pystr) : json :=
  JDict [("type", JStr (lit "section"));
         ("text", JDict [("type", JStr (lit "mrkdwn")); ("text", JStr text)])].

Definition button (url : pystr) : json :=
  JDict [("type", JStr (lit "button"));
         ("text", JDict [("type", JStr (lit "plain_text"));
                         ("text", JStr (LINK_SIGN ++ lit " Open in GCP Console"));
                         ("emoji", JBool true)]);
         ("url", JStr url)].

Definition actions_block (elements : list json) : json :=
  JDict [("type", JStr (lit "actions")); ("elements", JList elements)].

Definition divider_block : json :=
  JDict [("type", JStr (lit "divider"))].

(** Lines 227-231: the buttons of one row. *)
Definition action_elements (row : instance_row) : list json :=
  match instance_console_url row with
  | Some (c :: url) => [button (c :: url)]
  | _ => []
  end.

(** One iteration of the loop of lines 204-242 on the list [blocks]. *)
Definition append_row (blocks : list json) (row : instance_row) : list json :=
  let blocks := blocks ++ [section_block (message_text row)] in
  let blocks :=
    match action_elements row with
    | [] => blocks
    | elements => blocks ++ [actions_block elements]
    end in
  blocks ++ [divider_block].

(** Lines 245-246: drop a trailing divider.  [blocks[-1]["type"]] raises
    [KeyError] on a block without that key. *)
Definition pop_last_divider (blocks : list json) : M (list json) :=
  match rev blocks with
  | [] => ret blocks
  | last_block :: _ =>
      match dict_get "type" last_block with
      | Some ty =>
          if json_is_str ty (lit "divider") then ret (removelast blocks)
          else ret blocks
      | None => raise (OtherException (lit "'type'"))
      end
  end.

Definition ephemeral_text (text : pystr) : json :=
  JDict [("response_type", JStr (lit "ephemeral")); ("text", JStr text)].

Definition ephemeral_blocks (blocks : list json) : json :=
  JDict [("response_type", JStr (lit "ephemeral")); ("blocks", JList blocks)].

(** Lines 303-311: glyph and message of a status row.  [status_value] is the
    lower-cased status text. *)
Definition emoji_and_message (status_value : pystr) (row : status_row)
    (resource_name : pystr) : pystr * pystr :=
  if py_in (lit "active") status_value || py_in (lit "ok") status_value
     || py_in (lit "complete") status_value then
    (CHECK_MARK,
     lit "Resource *" ++ or_else (item_name row) resource_name
     ++ lit "* has a favorable status: *"
     ++ or_else (current_status row) (lit "N/A") ++ lit "*.")
  else if py_in (lit "pending") status_value
          || py_in (lit "in progress") status_value then
    (HOURGLASS,
     lit "Resource *" ++ or_else (item_name row) resource_name
     ++ lit "* has status: *"
     ++ or_else (current_status row) (lit "N/A") ++ lit "*.")
  else
    (CROSS_MARK,
     lit "Resource *" ++ or_else (item_name row) resource_name
     ++ lit "* requires attention. Status: *"
     ++ or_else (current_status row) (lit "N/A") ++ lit "*.").

(** Lines 313-317. *)
Definition full_response_text (emoji message details_value last_checked_time : pystr)
    : pystr :=
  emoji ++ lit " " ++ message ++ NEWLINE
  ++ lit "   " ++ BULLET ++ lit " Details: _" ++ details_value ++ lit "_" ++ NEWLINE
  ++ lit "   " ++ BULLET ++ lit " Last checked: _" ++ last_checked_time ++ lit "_".

Definition CONTENT_TYPE_FORM : pystr := lit "application/x-www-form-urlencoded".

(** ** Vocabulary of the specification *)

(** The three tiers of the status formatter, with the glyph and the phrase
    each one puts into the message. *)
Inductive tier := Favorable | Pending | Unfavorable.

Definition glyph (t : tier) : pystr :=
  match t with
  | Favorable => CHECK_MARK
  | Pending => HOURGLASS
  | Unfavorable => CROSS_MARK
  end.

Definition tier_phrase (t : tier) : pystr :=
  match t with
  | Favorable => lit "* has a favorable status: *"
  | Pending => lit "* has status: *"
  | Unfavorable => lit "* requires attention. Status: *"
  end.

(** The text of the status reply for a row classified in tier [t]. *)
Definition status_text (t : tier) (row : status_row) (resource_name : pystr) : pystr :=
  glyph t ++ lit " "
  ++ (lit "Resource *" ++ or_else (item_name row) resource_name ++ tier_phrase t
      ++ or_else (current_status row) (lit "N/A") ++ lit "*.") ++ NEWLINE
  ++ lit "   " ++ BULLET ++ lit " Details: _"
  ++ or_else (details row) (lit "No additional details.") ++ lit "_" ++ NEWLINE
  ++ lit "   " ++ BULLET ++ lit " Last checked: _"
  ++ last_checked_time (last_checked row) ++ lit "_".

(** [s] contains [needle] up to the case of ASCII letters. *)
Definition contains_ci (needle s : pystr) : Prop :=
  exists pre mid post, s = pre ++ mid ++ post /\ map ascii_lower mid = needle.

(** What one resource row contributes to the block list: a section, an
    actions block holding the console button when the row has a non-empty
    console URL, and a divider. *)
Definition blocks_of_row (row : instance_row) : list json :=
  [section_block (message_text row)]
  ++ match instance_console_url row with
     | Some (c :: url) => [actions_block [button (c :: url)]]
     | _ => []
     end
  ++ [divider_block].

Definition block_type_is (ty : pystr) (b : json) : bool :=
  match dict_get "type" b with
  | Some t => json_is_str t ty
  | None => false
  end.

Definition is_divider (b : json) : bool := block_type_is (lit "divider") b.

Definition is_block (b : json) : bool :=
  block_type_is (lit "section") b || block_type_is (lit "actions") b
  || block_type_is (lit "divider") b.

(** A well-formed chat payload: a dict with a response type and either a
    text or a list of blocks. *)
Definition chat_payload (payload : json) : bool :=
  match dict_get "response_type" payload with
  | Some rt =>
      (json_is_str rt (lit "ephemeral") || json_is_str rt (lit "in_channel"))
      && match dict_get "text" payload, dict_get "blocks" payload with
         | Some (JStr _), None => true
         | None, Some (JList blocks) => forallb is_block blocks
         | _, _ => false
         end
  | None => false
  end.

Definition is_ephemeral (payload : json) : Prop :=
  dict_get "response_type" payload = Some (JStr (lit "ephemeral")).

(** The query events of a computation, in order. *)
Definition queries {A} (m : M A) : list event := filter is_query (trace_of m).

(** The two replies of the handler's [except] clauses. *)
Definition validation_error (ve : pystr) : json :=
  ephemeral_text (lit "Validation Error: " ++ ve).

Definition apology : json :=
  ephemeral_text
    (lit "Sorry, an error occurred while processing your request. Please try again later.").

(** What the handler makes of the outcome of a lookup: the log record of
    the [except] clause that catches it, if one does, and the payload sent. *)
Definition caught (r : exn + json) : list event * json :=
  match r with
  | inr payload => ([], payload)
  | inl (ValueError ve) => ([Log ERROR 124], validation_error ve)
  | inl (OtherException _) => ([Log ERROR 131], apology)
  end.

(** The row has a non-empty console URL. *)
Definition has_console_url (row : instance_row) : bool :=
  match instance_console_url row with
  | Some (_ :: _) => true
  | _ => false
  end.




(** ** Sample environments and inputs *)

(** A lower-casing that leaves every character outside ASCII as it is. *)
Definition lower_ascii_only (before : pystr) (c : codepoint) (after : pystr) : pystr :=
  [c].

Definition accept_signature (secret body timestamp signature : pystr) : exn + bool :=
  inr true.

Definition no_instances (resource_name : pystr) : exn + list instance_row := inr [].

Definition no_status (resource_name : pystr) : exn + list status_row := inr [].

Definition slack_request (command text : pystr) : Request :=
  {| content_type := Some CONTENT_TYPE_FORM;
     slack_timestamp := Some (lit "1700000000");
     slack_signature := Some (lit "v0=abcdef");
     data := lit "command=x&text=y";
     form := [(lit "command", command); (lit "text", text)] |}.

Definition sample_timestamp : datetime :=
  {| year := 2024; month := 3; day := 5;
     hour := 7; minute := 9; second := 30; microsecond := 0 |}.

Definition sample_instance (url : option pystr) : instance_row :=
  {| instance_id := VInt 42;
     instance_name := VStr (lit "web-1");
     project_id := VStr (lit "demo");
     status := VStr (lit "RUNNING");
     zone := VStr (lit "europe-west1-b");
     machine_type := VNone;
     creation_timestamp := VTimestamp sample_timestamp;
     instance_console_url := url |}.

Definition sample_status (st : value) : status_row :=
  {| item_name := VStr (lit "web-1");
     current_status := st;
     details := VNone;
     last_checked := VTimestamp sample_timestamp |}.

Definition SAMPLE_SECRET : option pystr := Some (lit "s3cret").

Definition SAMPLE_URL : pystr :=
  lit "https://console.cloud.google.com/compute/instancesDetail/zones/europe-west1-b/instances/web-1?project=demo".

(** A form that carries a text but no command. *)
Definition request_without_command : Request :=
  {| content_type := Some CONTENT_TYPE_FORM;
     slack_timestamp := Some (lit "1700000000");
     slack_signature := Some (lit "v0=abcdef");
     data := lit "text=foo+bar";
     form := [(lit "text", lit "foo bar")] |}.

Definition two_instances (resource_name : pystr) : exn + list instance_row :=
  inr [sample_instance (Some SAMPLE_URL); sample_instance None].

Definition failing_instances (resource_name : pystr) : exn + list instance_row :=
  inl (OtherException (lit "503 Service Unavailable")).

Definition json_request : Request :=
  {| content_type := Some (lit "application/json");
     slack_timestamp := None;
     slack_signature := None;
     data := lit "{}";
     form := [] |}.

Definition one_status (st : value) (resource_name : pystr) : exn + list status_row :=
  inr [sample_status st].

Definition reject_signature (secret body timestamp signature : pystr) : exn + bool :=
  inr false.

(** The verifier on a timestamp that is not an integer. *)
Definition raising_verifier (secret body timestamp signature : pystr) : exn + bool :=
  inl (ValueError (lit "invalid literal for int() with base 10: 'soon'")).

(** Two requests as Slack sends them, each with the form its body parses
    to: the second has blanks around both fields, so its body and its
    signature differ from those of the first. *)
Definition plain_request : Request :=
  {| content_type := Some CONTENT_TYPE_FORM;
     slack_timestamp := Some (lit "1700000000");
     slack_signature := Some (lit "v0=abcdef");
     data := lit "command=%2Fgetinfo&text=Web-1";
     form := [(lit "command", lit "/getinfo"); (lit "text", lit "Web-1")] |}.

Definition padded_request : Request :=
  {| content_type := Some CONTENT_TYPE_FORM;
     slack_timestamp := Some (lit "1700000000");
     slack_signature := Some (lit "v0=012345");
     data := lit "command=+%2Fgetinfo++&text=++Web-1+";
     form := [(lit "command", lit " /getinfo  "); (lit "text", lit "  Web-1 ")] |}.



Definition two_statuses (resource_name : pystr) : exn + list status_row :=
  inr [sample_status (VStr (lit "In Progress (50%)"));
       sample_status (VStr (lit "Active"))].

(** ** The Cloud Function *)

Section CloudFunction.

(** [str.lower()] on a character outside ASCII, given the characters before
    and after it (Unicode's full lower-case mapping, with its rule for a
    final sigma). *)
Variable unicode_lower : pystr -> codepoint -> pystr -> pystr.

(** [os.environ.get("SLACK_SIGNING_SECRET")] *)
Variable SLACK_SIGNING_SECRET : option pystr.

(** [SignatureVerifier(secret).is_valid(body, timestamp, signature)], which
    may raise (it parses the timestamp as an integer). *)
Variable is_valid : pystr -> pystr -> pystr -> pystr -> exn + bool.

(** The exception [bigquery.Client()] raises, if it does. *)
Variable client_error : option exn.

(** [list(client.query(query, job_config).result())] for each of the two
    queries, by the value bound to [@resource_name]. *)
Variable query_instances : pystr -> exn + list instance_row.
Variable query_status : pystr -> exn + list status_row.

Fixpoint lower_from (before s : pystr) : pystr :=
  match s with
  | [] => []
  | c :: after =>
      (if is_ascii c then [ascii_lower c] else unicode_lower before c after)
      ++ lower_from (before ++ [c]) after
  end.

(** [s.lower()] *)
Definition py_lower (s : pystr) : pystr := lower_from [] s.

(** Line 114. *)
Definition sanitize (parameter : pystr) : pystr :=
  py_lower (re_sub_disallowed parameter).

Definition bigquery_Client : M unit :=
  match client_error with
  | Some e => raise e
  | None => ret tt
  end.

Definition run_query {R} (t : table) (rows_of : pystr -> exn + list R)
    (resource_name : pystr) : M (list R) :=
  ([Query t resource_name], rows_of resource_name).

Definition get_resource_info (resource_name : pystr) : M json :=
  (bigquery_Client ;;
   logging INFO 190 ;;
   rows <- run_query INSTANCES_TABLE query_instances resource_name ;;
   match rows with
   | [] =>
       logging WARNING 195 ;;
       ret (JDict [("response_type", JStr (lit "ephemeral"));
                   ("text", JStr (lit "No information found for resource: *"
                                  ++ resource_name ++ lit "*."))])
   | _ =>
       logging INFO 201 ;;
       let blocks := fold_left append_row rows [] in
       blocks <- pop_last_divider blocks ;;
       ret (JDict [("response_type", JStr (lit "ephemeral"));
                   ("blocks", JList blocks)])
   end)%py.

(** Line 293. *)
Definition status_value (row : status_row) : pystr :=
  match current_status row with
  | VNone => lit "unknown"
  | v => py_lower (py_str v)
  end.

Definition check_resource_status (resource_name : pystr) : M json :=
  (bigquery_Client ;;
   logging INFO 279 ;;
   rows <- run_query STATUS_CHECK_TABLE query_status resource_name ;;
   match rows with
   | [] =>
       logging INFO 284 ;;
       ret (JDict [("response_type", JStr (lit "ephemeral"));
                   ("text", JStr (QUESTION_MARK_SIGN ++ lit " Resource *"
                                  ++ resource_name
                                  ++ lit "* was not found for status check."))])
   | row :: _ =>
       logging INFO 291 ;;
       let status_value := status_value row in
       let details_value := or_else (details row) (lit "No additional details.") in
       let last_checked_time := last_checked_time (last_checked row) in
       let (emoji, message) := emoji_and_message status_value row resource_name in
       ret (JDict [("response_type", JStr (lit "ephemeral"));
                   ("text", JStr (full_response_text emoji message details_value
                                    last_checked_time))])
   end)%py.

Definition menu_controller (command parameter : pystr) : M json :=
  (logging INFO 141 ;;
   if pystr_eqb command (lit "/getinfo") then
     response_payload <- get_resource_info parameter ;;
     ret response_payload
   else if pystr_eqb command (lit "/checkstatus") then
     response_payload <- check_resource_status parameter ;;
     ret response_payload
   else
     logging WARNING 152 ;;
     ret (JDict [("response_type", JStr (lit "ephemeral"));
                 ("text", JStr (lit "Command '" ++ command
                                ++ lit "' not recognized."))]))%py.

Definition verify_slack_signature (request : Request) : M bool :=
  match SLACK_SIGNING_SECRET with
  | None | Some [] =>
      (logging ERROR 331 ;;
       raise (ValueError (lit "Server configuration does not include Slack signing secret. Verification skipped (INSECURE).")))%py
  | Some slack_signing_secret =>
      let request_body := data request in
      let timestamp := header_or (slack_timestamp request) [] in
      let signature := header_or (slack_signature request) [] in
      (logging DEBUG 343 ;;
       valid <- ([IsValid slack_signing_secret request_body timestamp signature],
                 is_valid slack_signing_secret request_body timestamp signature) ;;
       if negb valid then
         logging ERROR 347 ;;
         raise (ValueError (lit "Invalid Slack signature."))
       else
         logging INFO 350 ;;
         ret true)%py
  end.

Definition request_handler (request : Request) : M response :=
  try_except
    (if header_is (content_type request) CONTENT_TYPE_FORM then
       (verify_slack_signature request ;;
        logging INFO 92 ;;
        logging INFO 93 ;;
        let input_data := form request in
        let command := py_strip (form_get input_data (lit "command") []) in
        let parameter := py_strip (form_get input_data (lit "text") []) in
        match command with
        | [] =>
            logging WARNING 100 ;;
            ret (RDict (JDict [("response_type", JStr (lit "ephemeral"));
                               ("text", JStr (lit "Error: No command was provided."))]))
        | _ =>
            if match parameter with [] => true | _ => false end
               || (1 <? List.length (py_split parameter))%nat then
              logging INFO 107 ;;
              ret (RDict (JDict [("response_type", JStr (lit "ephemeral"));
                                 ("text", JStr (lit "Error: A single parameter was expected. Example: "
                                                ++ command ++ lit " my-resource"))]))
            else
              let parameter := sanitize parameter in
              logging INFO 115 ;;
              payload <- menu_controller command parameter ;;
              ret (RDict payload)
        end)%py
     else
       (logging WARNING 119 ;;
        logging DEBUG 120 ;;
        ret (RTuple (lit "This request does not appear to be from Slack (incorrect Content-Type).") 400))%py)
    (fun ve =>
       (logging ERROR 124 ;;
        ret (RDict (JDict [("response_type", JStr (lit "ephemeral"));
                           ("text", JStr (lit "Validation Error: " ++ ve))])))%py)
    (fun e =>
       (logging ERROR 131 ;;
        ret (RDict (JDict [("response_type", JStr (lit "ephemeral"));
                           ("text", JStr (lit "Sorry, an error occurred while processing your request. Please try again later."))])))%py).

(** The request passes [verify_slack_signature]: a non-empty secret is
    configured and [is_valid] accepts the body, timestamp and signature. *)
Definition signature_accepted (request : Request) : Prop :=
  match SLACK_SIGNING_SECRET with
  | Some (c :: secret) =>
      is_valid (c :: secret) (data request)
        (header_or (slack_timestamp request) [])
        (header_or (slack_signature request) []) = inr true
  | _ => False
  end.

(** An authenticated Slack request: form-encoded, with an accepted
    signature. *)
Definition authenticated (request : Request) : Prop :=
  content_type request = Some CONTENT_TYPE_FORM /\ signature_accepted request.

(** The events of a successful [verify_slack_signature]. *)
Definition verified_trace (request : Request) : list event :=
  match SLACK_SIGNING_SECRET with
  | Some secret =>
      [Log DEBUG 343;
       IsValid secret (data request)
         (header_or (slack_timestamp request) [])
         (header_or (slack_signature request) []);
       Log INFO 350]
  | None => []
  end.

(** [command] and [parameter] as lines 96-97 read them from the form. *)
Definition command_of (request : Request) : pystr :=
  py_strip (form_get (form request) (lit "command") []).

Definition parameter_of (request : Request) : pystr :=
  py_strip (form_get (form request) (lit "text") []).

(** A computation that, when it returns, returns a well-formed ephemeral
    chat payload. *)
Definition reply_ok (m : M json) : Prop :=
  match result_of m with
  | inl _ => True
  | inr payload => chat_payload payload = true /\ is_ephemeral payload
  end.

(** ** Basic facts about strings *)

Lemma pystr_eqb_eq (a b : pystr) : pystr_eqb a b = true <-> a = b.
Proof.
  revert b; induction a as [|x a IH]; intros [|y b]; simpl; split;
    try congruence; try reflexivity.
  - intros H. apply andb_true_iff in H as [Hx Hab].
    apply N.eqb_eq in Hx. apply IH in Hab. congruence.
  - intros H. injection H as -> ->.
    rewrite N.eqb_refl. simpl. now apply IH.
Qed.

Lemma pystr_eqb_neq (a b : pystr) : a <> b -> pystr_eqb a b = false.
Proof.
  intros H. destruct (pystr_eqb a b) eqn:E; [|reflexivity].
  apply pystr_eqb_eq in E. contradiction.
Qed.

Lemma pystr_eqb_refl (a : pystr) : pystr_eqb a a = true.
Proof. now apply pystr_eqb_eq. Qed.

Lemma startswith_app (p s : pystr) : startswith p (p ++ s) = true.
Proof.
  induction p as [|x p IH]; simpl; [reflexivity|].
  now rewrite N.eqb_refl.
Qed.

Lemma py_in_unfold (needle hay : pystr) :
  py_in needle hay
  = startswith needle hay
    || match hay with
       | [] => false
       | _ :: hay' => py_in needle hay'
       end.
Proof. destruct hay; reflexivity. Qed.

Lemma py_in_app (needle pre post : pystr) :
  py_in needle (pre ++ needle ++ post) = true.
Proof.
  induction pre as [|x pre IH]; simpl.
  - rewrite py_in_unfold, startswith_app. reflexivity.
  - rewrite IH. apply orb_true_r.
Qed.

Lemma allowed_is_ascii (c : codepoint) : allowed c = true -> is_ascii c = true.
Proof.
  unfold allowed, is_ascii, is_lower, is_upper, is_digit. intros H.
  apply N.ltb_lt.
  repeat (apply orb_true_iff in H as [H|H]);
    repeat (apply andb_true_iff in H as [? H]);
    repeat match goal with
           | h : (_ <=? _)%N = true |- _ => apply N.leb_le in h
           | h : (_ =? _)%N = true |- _ => apply N.eqb_eq in h
           end; lia.
Qed.

Lemma ascii_lower_class (c : codepoint) :
  allowed c = true -> lower_class (ascii_lower c) = true.
Proof.
  unfold allowed, lower_class, ascii_lower. intros H.
  destruct (is_upper c) eqn:U.
  - unfold is_upper in U. apply andb_true_iff in U as [U1 U2].
    apply N.leb_le in U1, U2.
    assert (L : is_lower (c + 32)%N = true).
    { unfold is_lower. apply andb_true_iff. split; apply N.leb_le; lia. }
    now rewrite L.
  - rewrite orb_false_r in H. rewrite <- !orb_assoc in *. exact H.
Qed.

Lemma lower_class_fixed (c : codepoint) :
  lower_class c = true -> allowed c = true /\ ascii_lower c = c.
Proof.
  unfold lower_class, allowed, ascii_lower. intros H. split.
  - destruct (is_lower c), (is_digit c), (c =? 45)%N, (c =? 95)%N,
      (is_upper c); simpl in *; congruence.
  - destruct (is_upper c) eqn:U; [|reflexivity]. exfalso.
    unfold is_upper in U. apply andb_true_iff in U as [U1 U2].
    apply N.leb_le in U1, U2. unfold is_lower, is_digit in H.
    repeat (apply orb_true_iff in H as [H|H]);
      repeat (apply andb_true_iff in H as [? H]);
      repeat match goal with
             | h : (_ <=? _)%N = true |- _ => apply N.leb_le in h
             | h : (_ =? _)%N = true |- _ => apply N.eqb_eq in h
             end; lia.
Qed.

(** On ASCII text [str.lower()] is the character-wise ASCII lower-casing,
    whatever stands before it. *)
Lemma lower_from_ascii (s before : pystr) :
  Forall (fun c => is_ascii c = true) s ->
  lower_from before s = map ascii_lower s.
Proof.
  revert before. induction s as [|c s IH]; intros before H; simpl.
  - reflexivity.
  - inversion H as [|? ? Hc Hs]; subst. rewrite Hc. simpl. now rewrite IH.
Qed.

Lemma lower_from_skip (pre rest before : pystr) :
  exists out, lower_from before (pre ++ rest) = out ++ lower_from (before ++ pre) rest.
Proof.
  revert before. induction pre as [|c pre IH]; intros before; simpl.
  - exists []. now rewrite app_nil_r.
  - destruct (IH (before ++ [c])) as [out E]. rewrite E, <- app_assoc. simpl.
    eexists. rewrite app_assoc. reflexivity.
Qed.

Lemma lower_from_ascii_app (mid post before : pystr) :
  Forall (fun c => is_ascii c = true) mid ->
  lower_from before (mid ++ post)
  = map ascii_lower mid ++ lower_from (before ++ mid) post.
Proof.
  revert before. induction mid as [|c mid IH]; intros before H; simpl.
  - now rewrite app_nil_r.
  - inversion H as [|? ? Hc Hs]; subst. rewrite Hc. simpl.
    rewrite IH, <- app_assoc by assumption. reflexivity.
Qed.

Lemma sanitize_eq (x : pystr) :
  sanitize x = map ascii_lower (filter allowed x).
Proof.
  unfold sanitize, py_lower, re_sub_disallowed.
  apply lower_from_ascii. apply Forall_forall. intros c Hc.
  apply filter_In in Hc as [_ Hc]. now apply allowed_is_ascii.
Qed.

(** C2. The sanitising step of the handler (strip every character outside
    [[A-Za-z0-9_-]], then lower-case) yields only characters of
    [[a-z0-9_-]], and applying it twice is the same as applying it once. *)
Theorem sanitize_class_idempotent (x : pystr) :
  Forall (fun c => lower_class c = true) (sanitize x)
  /\ sanitize (sanitize x) = sanitize x.
Proof.
  assert (C : Forall (fun c => lower_class c = true) (sanitize x)).
  { rewrite sanitize_eq. apply Forall_forall. intros c Hc.
    apply in_map_iff in Hc as (c0 & <- & Hc0).
    apply filter_In in Hc0 as [_ Hc0]. now apply ascii_lower_class. }
  split; [exact C|].
  rewrite (sanitize_eq (sanitize x)).
  induction C as [|c s Hc Hs IH]; simpl; [reflexivity|].
  destruct (lower_class_fixed c Hc) as [Ha Hl].
  rewrite Ha. simpl. now rewrite Hl, IH.
Qed.

(** ** The effect monad *)

Lemma result_bind {A B} (m : M A) (k : A -> M B) :
  result_of (bind m k)
  = match result_of m with
    | inl e => inl e
    | inr a => result_of (k a)
    end.
Proof.
  destruct m as [tr [e|a]]; simpl; [reflexivity|].
  destruct (k a); reflexivity.
Qed.

Lemma result_try_except {A} (body : M A) (h1 h2 : pystr -> M A) :
  result_of (try_except body h1 h2)
  = match result_of body with
    | inl (ValueError ve) => result_of (h1 ve)
    | inl (OtherException e) => result_of (h2 e)
    | inr a => inr a
    end.
Proof.
  destruct body as [tr [[ve|e]|a]]; simpl; try reflexivity.
  - destruct (h1 ve); reflexivity.
  - destruct (h2 e); reflexivity.
Qed.

(** ** The signature gate *)

Lemma header_is_form (request : Request) :
  header_is (content_type request) CONTENT_TYPE_FORM = true
  <-> content_type request = Some CONTENT_TYPE_FORM.
Proof.
  unfold header_is. destruct (content_type request) as [ct|].
  - rewrite pystr_eqb_eq. split; congruence.
  - split; discriminate.
Qed.

(** C1. A form-encoded request handled while no signing secret is configured
    (the variable is absent or empty) is never let through: verification
    raises, the only events are the two error log records (no signature
    check, no routing, no query), and the reply is an ephemeral payload whose
    text is "Validation Error: " followed by the reason. *)
Theorem missing_secret_is_fatal (request : Request) :
  content_type request = Some CONTENT_TYPE_FORM ->
  SLACK_SIGNING_SECRET = None \/ SLACK_SIGNING_SECRET = Some [] ->
  request_handler request
  = ([Log ERROR 331; Log ERROR 124],
     inr (RDict (ephemeral_text
       (lit "Validation Error: "
        ++ lit "Server configuration does not include Slack signing secret. Verification skipped (INSECURE).")))).
Proof.
  intros Hct Hsecret. apply header_is_form in Hct.
  unfold request_handler, verify_slack_signature. rewrite Hct.
  destruct Hsecret as [-> | ->]; reflexivity.
Qed.

Lemma verify_accepted (request : Request) :
  signature_accepted request ->
  verify_slack_signature request = (verified_trace request, inr true).
Proof.
  unfold signature_accepted, verify_slack_signature, verified_trace.
  destruct SLACK_SIGNING_SECRET as [[|c secret]|]; try contradiction.
  intros H. simpl. rewrite H. reflexivity.
Qed.

(** ** Splitting and stripping *)

Lemma split_from_lstrip (s : pystr) :
  split_from [] (lstrip s) = split_from [] s.
Proof.
  induction s as [|c s IH]; simpl; [reflexivity|].
  destruct (isspace c) eqn:E; [exact IH|].
  simpl. now rewrite E.
Qed.

Lemma split_from_spaces (sp word : pystr) :
  Forall (fun c => isspace c = true) sp ->
  split_from word sp = match word with [] => [] | _ => [word] end.
Proof.
  intros H. revert word. induction H as [|c sp Hc Hsp IH]; intros word; simpl.
  - reflexivity.
  - rewrite Hc. rewrite (IH []). destruct word; reflexivity.
Qed.

Lemma split_from_trailing (s sp word : pystr) :
  Forall (fun c => isspace c = true) sp ->
  split_from word (s ++ sp) = split_from word s.
Proof.
  intros H. revert word. induction s as [|c s IH]; intros word; simpl.
  - now apply split_from_spaces.
  - destruct (isspace c); [|apply IH].
    rewrite (IH []). reflexivity.
Qed.

Lemma lstrip_prefix (s : pystr) :
  exists sp, s = sp ++ lstrip s /\ Forall (fun c => isspace c = true) sp.
Proof.
  induction s as [|c s (sp & E & F)]; simpl.
  - exists []. split; [reflexivity|constructor].
  - destruct (isspace c) eqn:Hc.
    + exists (c :: sp). split; [simpl; congruence|now constructor].
    + exists []. split; [reflexivity|constructor].
Qed.

Lemma rstrip_suffix (s : pystr) :
  exists sp, s = rstrip s ++ sp /\ Forall (fun c => isspace c = true) sp.
Proof.
  destruct (lstrip_prefix (rev s)) as (sp & E & F).
  exists (rev sp). split.
  - unfold rstrip. rewrite <- rev_app_distr, <- E. now rewrite rev_involutive.
  - apply Forall_forall. intros c Hc. apply in_rev in Hc.
    rewrite Forall_forall in F. now apply F.
Qed.

(** Stripping a string does not change its tokens. *)
Lemma py_split_strip (s : pystr) : py_split (py_strip s) = py_split s.
Proof.
  unfold py_split, py_strip.
  destruct (rstrip_suffix (lstrip s)) as (sp & E & F).
  rewrite <- (split_from_lstrip s). rewrite E at 2.
  now rewrite split_from_trailing.
Qed.

(** ** Validation of the form fields *)

Lemma handler_no_command (request : Request) :
  authenticated request ->
  command_of request = [] ->
  request_handler request
  = (verified_trace request ++ [Log INFO 92; Log INFO 93; Log WARNING 100],
     inr (RDict (ephemeral_text (lit "Error: No command was provided.")))).
Proof.
  intros [Hct Hsig] Hcmd. apply header_is_form in Hct.
  unfold request_handler. rewrite Hct, (verify_accepted _ Hsig).
  unfold command_of in Hcmd. rewrite Hcmd. reflexivity.
Qed.

Lemma handler_usage (request : Request) :
  authenticated request ->
  command_of request <> [] ->
  parameter_of request = []
  \/ (1 < List.length (py_split (parameter_of request)))%nat ->
  request_handler request
  = (verified_trace request ++ [Log INFO 92; Log INFO 93; Log INFO 107],
     inr (RDict (ephemeral_text
       (lit "Error: A single parameter was expected. Example: "
        ++ command_of request ++ lit " my-resource")))).
Proof.
  intros [Hct Hsig] Hcmd Hpar. apply header_is_form in Hct.
  unfold request_handler. rewrite Hct, (verify_accepted _ Hsig).
  unfold command_of, parameter_of in *.
  destruct (py_strip (form_get (form request) (lit "command") [])) as [|c cmd];
    [congruence|].
  assert (T : match py_strip (form_get (form request) (lit "text") []) with
              | [] => true | _ => false end
              || (1 <? List.length
                    (py_split (py_strip (form_get (form request) (lit "text") []))))%nat
              = true).
  { destruct Hpar as [-> | Hlen]; [reflexivity|].
    apply Nat.ltb_lt in Hlen. rewrite Hlen. apply orb_true_r. }
  cbv zeta. rewrite T. reflexivity.
Qed.

Lemma handler_routed (request : Request) :
  authenticated request ->
  command_of request <> [] ->
  parameter_of request <> [] ->
  (List.length (py_split (parameter_of request)) <= 1)%nat ->
  request_handler request
  = try_except
      (bind (verified_trace request ++ [Log INFO 92; Log INFO 93; Log INFO 115],
             inr tt)
         (fun _ => bind (menu_controller (command_of request)
                           (sanitize (parameter_of request)))
                     (fun payload => ret (RDict payload))))
      (fun ve =>
         bind (logging ERROR 124)
           (fun _ => ret (RDict (ephemeral_text (lit "Validation Error: " ++ ve)))))
      (fun e =>
         bind (logging ERROR 131)
           (fun _ => ret (RDict (ephemeral_text
              (lit "Sorry, an error occurred while processing your request. Please try again later."))))).
Proof.
  intros [Hct Hsig] Hcmd Hpar Hlen. apply header_is_form in Hct.
  unfold request_handler. rewrite Hct, (verify_accepted _ Hsig).
  unfold command_of, parameter_of in *.
  destruct (py_strip (form_get (form request) (lit "command") [])) as [|c cmd];
    [congruence|].
  assert (T : match py_strip (form_get (form request) (lit "text") []) with
              | [] => true | _ => false end
              || (1 <? List.length
                    (py_split (py_strip (form_get (form request) (lit "text") []))))%nat
              = false).
  { apply orb_false_iff. split.
    - destruct (py_strip (form_get (form request) (lit "text") []));
        [congruence|reflexivity].
    - apply Nat.ltb_ge. exact Hlen. }
  cbv zeta. rewrite T.
  destruct (menu_controller (c :: cmd)
              (sanitize (py_strip (form_get (form request) (lit "text") []))))
    as [tr [[ve|e]|payload]]; simpl; rewrite <- ?app_assoc; reflexivity.
Qed.

(** ** The resource formatter *)

Lemma append_row_blocks (blocks : list json) (row : instance_row) :
  append_row blocks row = blocks ++ blocks_of_row row.
Proof.
  unfold append_row, blocks_of_row, action_elements.
  destruct (instance_console_url row) as [[|c url]|]; simpl;
    rewrite <- ?app_assoc; reflexivity.
Qed.

Lemma fold_append_row (rows : list instance_row) (blocks : list json) :
  fold_left append_row rows blocks = blocks ++ flat_map blocks_of_row rows.
Proof.
  revert blocks. induction rows as [|row rows IH]; intros blocks; simpl.
  - now rewrite app_nil_r.
  - rewrite IH, append_row_blocks, <- app_assoc. reflexivity.
Qed.

Lemma blocks_of_row_last (row : instance_row) :
  exists body b,
    blocks_of_row row = (body ++ [b]) ++ [divider_block]
    /\ is_divider b = false
    /\ forallb is_block (body ++ [b]) = true.
Proof.
  unfold blocks_of_row.
  destruct (instance_console_url row) as [[|c url]|].
  - exists [], (section_block (message_text row)). repeat split.
  - exists [section_block (message_text row)], (actions_block [button (c :: url)]).
    repeat split.
  - exists [], (section_block (message_text row)). repeat split.
Qed.

Lemma blocks_of_row_are_blocks (row : instance_row) :
  forallb is_block (blocks_of_row row) = true.
Proof.
  unfold blocks_of_row.
  destruct (instance_console_url row) as [[|c url]|]; reflexivity.
Qed.

(** For at least one row, the blocks of all rows end with the divider of
    the last row, and what stands before it ends with a block that is not a
    divider. *)
Lemma flat_map_blocks_last (rows : list instance_row) :
  rows <> [] ->
  exists body b,
    flat_map blocks_of_row rows = (body ++ [b]) ++ [divider_block]
    /\ is_divider b = false
    /\ forallb is_block (body ++ [b]) = true.
Proof.
  intros H. destruct (exists_last H) as (init & row & ->).
  destruct (blocks_of_row_last row) as (body & b & E & D & B).
  exists (flat_map blocks_of_row init ++ body), b.
  rewrite flat_map_app.
  change (flat_map blocks_of_row [row]) with (blocks_of_row row ++ []).
  rewrite app_nil_r, E. repeat split.
  - now rewrite <- !app_assoc.
  - exact D.
  - rewrite <- app_assoc, forallb_app, B, andb_true_r.
    apply forallb_forall. intros x Hx. apply in_flat_map in Hx as (r & _ & Hx).
    pose proof (blocks_of_row_are_blocks r) as Hr.
    rewrite forallb_forall in Hr. now apply Hr.
Qed.

Lemma pop_last_divider_app (body : list json) :
  pop_last_divider (body ++ [divider_block]) = ret body.
Proof.
  unfold pop_last_divider. rewrite rev_unit. simpl.
  now rewrite removelast_last.
Qed.

Lemma get_resource_info_none (resource_name : pystr) :
  client_error = None ->
  query_instances resource_name = inr [] ->
  get_resource_info resource_name
  = ([Log INFO 190; Query INSTANCES_TABLE resource_name; Log WARNING 195],
     inr (ephemeral_text (lit "No information found for resource: *"
                          ++ resource_name ++ lit "*."))).
Proof.
  intros Hc Hq. unfold get_resource_info, bigquery_Client, run_query.
  rewrite Hc, Hq. reflexivity.
Qed.

Lemma get_resource_info_some (resource_name : pystr) (rows : list instance_row) :
  client_error = None ->
  query_instances resource_name = inr rows ->
  rows <> [] ->
  exists blocks,
    blocks ++ [divider_block] = flat_map blocks_of_row rows
    /\ get_resource_info resource_name
       = ([Log INFO 190; Query INSTANCES_TABLE resource_name; Log INFO 201],
          inr (ephemeral_blocks blocks)).
Proof.
  intros Hc Hq Hrows.
  destruct (flat_map_blocks_last Hrows) as (body & b & E & _ & _).
  exists (body ++ [b]). split; [now rewrite E|].
  unfold get_resource_info, bigquery_Client, run_query. rewrite Hc, Hq.
  destruct rows as [|row rows]; [congruence|].
  cbn -[fold_left pop_last_divider lit].
  rewrite fold_append_row.
  change ([] ++ flat_map blocks_of_row (row :: rows))
    with (flat_map blocks_of_row (row :: rows)).
  rewrite E, pop_last_divider_app. reflexivity.
Qed.

(** C3. With no matching row, [get_resource_info] answers with an ephemeral
    text saying that no information was found for the queried resource.
    With one or more rows it answers with blocks: every row contributes, in
    order, a section, an actions block with the console button exactly when
    its console URL is non-empty, and a divider; the divider after the last
    row is left out, so the list is non-empty and its last block is not a
    divider. *)
Theorem get_resource_info_blocks (resource_name : pystr) (rows : list instance_row) :
  client_error = None ->
  query_instances resource_name = inr rows ->
  match rows with
  | [] =>
      result_of (get_resource_info resource_name)
      = inr (ephemeral_text (lit "No information found for resource: *"
                             ++ resource_name ++ lit "*."))
  | _ =>
      exists init last_block,
        result_of (get_resource_info resource_name)
        = inr (ephemeral_blocks (init ++ [last_block]))
        /\ (init ++ [last_block]) ++ [divider_block] = flat_map blocks_of_row rows
        /\ is_divider last_block = false
  end.
Proof.
  intros Hc Hq. destruct rows as [|row rows].
  - now rewrite get_resource_info_none.
  - assert (Hrows : row :: rows <> []) by discriminate.
    destruct (get_resource_info_some Hc Hq Hrows) as (blocks & E & R).
    destruct (flat_map_blocks_last Hrows) as (body & b & E' & D & _).
    rewrite E' in E. apply app_inj_tail in E as [-> _].
    exists body, b. rewrite R. repeat split; [now rewrite E'|exact D].
Qed.

(** ** The status formatter *)

Lemma check_resource_status_none (resource_name : pystr) :
  client_error = None ->
  query_status resource_name = inr [] ->
  check_resource_status resource_name
  = ([Log INFO 279; Query STATUS_CHECK_TABLE resource_name; Log INFO 284],
     inr (ephemeral_text (QUESTION_MARK_SIGN ++ lit " Resource *" ++ resource_name
                          ++ lit "* was not found for status check."))).
Proof.
  intros Hc Hq. unfold check_resource_status, bigquery_Client, run_query.
  rewrite Hc, Hq. reflexivity.
Qed.

Lemma check_resource_status_some (resource_name : pystr) (row : status_row)
    (rest : list status_row) :
  client_error = None ->
  query_status resource_name = inr (row :: rest) ->
  check_resource_status resource_name
  = ([Log INFO 279; Query STATUS_CHECK_TABLE resource_name; Log INFO 291],
     inr (ephemeral_text
       (full_response_text
          (fst (emoji_and_message (status_value row) row resource_name))
          (snd (emoji_and_message (status_value row) row resource_name))
          (or_else (details row) (lit "No additional details."))
          (last_checked_time (last_checked row))))).
Proof.
  intros Hc Hq. unfold check_resource_status, bigquery_Client, run_query.
  rewrite Hc, Hq. cbn -[lit emoji_and_message full_response_text status_value].
  destruct (emoji_and_message (status_value row) row resource_name).
  reflexivity.
Qed.

(** The text built from [emoji_and_message], by the tests of lines 303 and
    306 on the lower-cased status. *)
Lemma status_text_by_tier (row : status_row) (resource_name sv : pystr) :
  full_response_text
    (fst (emoji_and_message sv row resource_name))
    (snd (emoji_and_message sv row resource_name))
    (or_else (details row) (lit "No additional details."))
    (last_checked_time (last_checked row))
  = status_text
      (if py_in (lit "active") sv || py_in (lit "ok") sv || py_in (lit "complete") sv
       then Favorable
       else if py_in (lit "pending") sv || py_in (lit "in progress") sv
            then Pending else Unfavorable)
      row resource_name.
Proof.
  unfold emoji_and_message.
  destruct (py_in (lit "active") sv || py_in (lit "ok") sv
            || py_in (lit "complete") sv); [reflexivity|].
  destruct (py_in (lit "pending") sv || py_in (lit "in progress") sv);
    reflexivity.
Qed.

(** C4. A status row whose [current_status] is "Active" is answered in the
    favorable tier (check-mark glyph), "Pending Review" in the pending tier
    (hourglass glyph) and "Failed" in the unfavorable tier (cross glyph). *)
Theorem status_tier_examples (resource_name : pystr) (row : status_row)
    (rest : list status_row) (t : tier) :
  client_error = None ->
  query_status resource_name = inr (row :: rest) ->
  In (current_status row, t)
     [(VStr (lit "Active"), Favorable);
      (VStr (lit "Pending Review"), Pending);
      (VStr (lit "Failed"), Unfavorable)] ->
  result_of (check_resource_status resource_name)
  = inr (ephemeral_text (status_text t row resource_name)).
Proof.
  intros Hc Hq Hin. rewrite (check_resource_status_some Hc Hq).
  unfold result_of, snd. rewrite status_text_by_tier. unfold status_value.
  destruct Hin as [E|[E|[E|[]]]]; injection E as E <-; rewrite <- E; reflexivity.
Qed.

Lemma ascii_lower_is_ascii (c : codepoint) :
  is_ascii (ascii_lower c) = true -> is_ascii c = true.
Proof.
  unfold ascii_lower, is_ascii, is_upper.
  destruct ((65 <=? c)%N && (c <=? 90)%N) eqn:U; [|trivial].
  intros _. apply andb_true_iff in U as [_ U]. apply N.leb_le in U.
  apply N.ltb_lt. lia.
Qed.

(** A needle of ASCII characters found in [s] up to case is found in
    [s.lower()]. *)
Lemma contains_ci_lower (needle s : pystr) :
  Forall (fun c => is_ascii c = true) needle ->
  contains_ci needle s ->
  py_in needle (py_lower s) = true.
Proof.
  intros Hn (pre & mid & post & -> & <-).
  assert (Hmid : Forall (fun c => is_ascii c = true) mid).
  { rewrite Forall_forall in *. intros c Hc. apply ascii_lower_is_ascii.
    apply Hn. now apply in_map. }
  unfold py_lower.
  destruct (lower_from_skip pre (mid ++ post) []) as [out ->].
  rewrite lower_from_ascii_app by exact Hmid.
  apply py_in_app.
Qed.

(** C10 (amended). The favorable test of line 303 comes before the pending
    test of line 306: a present status that contains "active", "ok" or
    "complete" up to case is answered in the favorable tier with the
    check-mark glyph, whatever else it contains (for instance
    "PENDING - ACTIVE"); a null status is read as "unknown" and answered in
    the unfavorable tier. *)
Theorem favorable_tier_first (resource_name : pystr) (row : status_row)
    (rest : list status_row) :
  client_error = None ->
  query_status resource_name = inr (row :: rest) ->
  (current_status row <> VNone ->
   contains_ci (lit "active") (py_str (current_status row))
   \/ contains_ci (lit "ok") (py_str (current_status row))
   \/ contains_ci (lit "complete") (py_str (current_status row)) ->
   result_of (check_resource_status resource_name)
   = inr (ephemeral_text (status_text Favorable row resource_name)))
  /\ (current_status row = VNone ->
      status_value row = lit "unknown"
      /\ result_of (check_resource_status resource_name)
         = inr (ephemeral_text (status_text Unfavorable row resource_name))).
Proof.
  intros Hc Hq. rewrite (check_resource_status_some Hc Hq).
  unfold result_of, snd. rewrite status_text_by_tier. split.
  - intros Hv H.
    assert (Hsv : status_value row = py_lower (py_str (current_status row))).
    { unfold status_value. destruct (current_status row); congruence. }
    rewrite Hsv.
    assert (A : forall n, Forall (fun c => is_ascii c = true) (lit n) ->
                contains_ci (lit n) (py_str (current_status row)) ->
                py_in (lit n) (py_lower (py_str (current_status row))) = true)
      by (intros; now apply contains_ci_lower).
    destruct H as [H|[H|H]]; apply A in H;
      try (rewrite H, ?orb_true_r; reflexivity);
      repeat constructor.
  - intros Hv. unfold status_value. rewrite Hv. split; reflexivity.
Qed.

(** ** The router *)

Lemma get_resource_info_reply (resource_name : pystr) :
  reply_ok (get_resource_info resource_name).
Proof.
  unfold reply_ok.
  destruct client_error as [e|] eqn:Hc.
  { unfold get_resource_info, bigquery_Client. rewrite Hc. exact I. }
  destruct (query_instances resource_name) as [e|rows] eqn:Hq.
  { unfold get_resource_info, bigquery_Client, run_query. rewrite Hc, Hq. exact I. }
  destruct rows as [|row rows].
  - rewrite (get_resource_info_none Hc Hq). split; reflexivity.
  - assert (Hrows : row :: rows <> []) by discriminate.
    destruct (get_resource_info_some Hc Hq Hrows) as (blocks & E & ->).
    split; [|reflexivity].
    assert (B : forallb is_block (blocks ++ [divider_block]) = true).
    { rewrite E. apply forallb_forall. intros x Hx.
      apply in_flat_map in Hx as (r & _ & Hx).
      pose proof (blocks_of_row_are_blocks r) as Hr.
      rewrite forallb_forall in Hr. now apply Hr. }
    rewrite forallb_app in B. apply andb_true_iff in B as [B _]. exact B.
Qed.

Lemma check_resource_status_reply (resource_name : pystr) :
  reply_ok (check_resource_status resource_name).
Proof.
  unfold reply_ok.
  destruct client_error as [e|] eqn:Hc.
  { unfold check_resource_status, bigquery_Client. rewrite Hc. exact I. }
  destruct (query_status resource_name) as [e|rows] eqn:Hq.
  { unfold check_resource_status, bigquery_Client, run_query. rewrite Hc, Hq. exact I. }
  destruct rows as [|row rows].
  - rewrite (check_resource_status_none Hc Hq). split; reflexivity.
  - rewrite (check_resource_status_some Hc Hq). split; reflexivity.
Qed.

Lemma menu_controller_unknown (command parameter : pystr) :
  command <> lit "/getinfo" ->
  command <> lit "/checkstatus" ->
  menu_controller command parameter
  = ([Log INFO 141; Log WARNING 152],
     inr (ephemeral_text (lit "Command '" ++ command ++ lit "' not recognized."))).
Proof.
  intros H1 H2. unfold menu_controller.
  rewrite (pystr_eqb_neq H1), (pystr_eqb_neq H2). reflexivity.
Qed.

Lemma menu_controller_reply (command parameter : pystr) :
  reply_ok (menu_controller command parameter).
Proof.
  unfold reply_ok, menu_controller. rewrite result_bind.
  change (result_of (logging INFO 141)) with (@inr exn unit tt). cbv iota beta.
  destruct (pystr_eqb command (lit "/getinfo")).
  { rewrite result_bind.
    pose proof (get_resource_info_reply parameter) as H. unfold reply_ok in H.
    destruct (result_of (get_resource_info parameter)); [exact I|exact H]. }
  destruct (pystr_eqb command (lit "/checkstatus")).
  { rewrite result_bind.
    pose proof (check_resource_status_reply parameter) as H. unfold reply_ok in H.
    destruct (result_of (check_resource_status parameter)); [exact I|exact H]. }
  split; reflexivity.
Qed.

(** ** The request handler *)

Lemma option_eq_form (h : option pystr) :
  h = Some CONTENT_TYPE_FORM \/ h <> Some CONTENT_TYPE_FORM.
Proof.
  destruct h as [v|]; [|right; discriminate].
  destruct (pystr_eqb v CONTENT_TYPE_FORM) eqn:E.
  - left. apply pystr_eqb_eq in E. congruence.
  - right. intros H. injection H as ->. now rewrite pystr_eqb_refl in E.
Qed.

Lemma handler_wrong_content_type (request : Request) :
  content_type request <> Some CONTENT_TYPE_FORM ->
  request_handler request
  = ([Log WARNING 119; Log DEBUG 120],
     inr (RTuple (lit "This request does not appear to be from Slack (incorrect Content-Type).") 400)).
Proof.
  intros H. unfold request_handler.
  destruct (header_is (content_type request) CONTENT_TYPE_FORM) eqn:E.
  - apply header_is_form in E. contradiction.
  - reflexivity.
Qed.

Lemma handler_form_reply (request : Request) :
  content_type request = Some CONTENT_TYPE_FORM ->
  exists payload,
    result_of (request_handler request) = inr (RDict payload)
    /\ chat_payload payload = true /\ is_ephemeral payload.
Proof.
  intros Hct. apply header_is_form in Hct.
  unfold request_handler. rewrite Hct, result_try_except, result_bind.
  destruct (result_of (verify_slack_signature request)) as [[ve|e]|b].
  { eexists. repeat split. }
  { eexists. repeat split. }
  rewrite !result_bind.
  change (result_of (logging INFO 92)) with (@inr exn unit tt).
  change (result_of (logging INFO 93)) with (@inr exn unit tt).
  cbv iota beta zeta.
  destruct (py_strip (form_get (form request) (lit "command") [])) as [|c cmd].
  { eexists. repeat split. }
  destruct (match py_strip (form_get (form request) (lit "text") []) with
            | [] => true | _ => false end
            || (1 <? List.length
                  (py_split (py_strip (form_get (form request) (lit "text") []))))%nat).
  { eexists. repeat split. }
  rewrite !result_bind.
  change (result_of (logging INFO 115)) with (@inr exn unit tt).
  cbv iota beta.
  pose proof (menu_controller_reply (c :: cmd)
                (sanitize (py_strip (form_get (form request) (lit "text") [])))) as H.
  unfold reply_ok in H.
  destruct (result_of (menu_controller (c :: cmd)
              (sanitize (py_strip (form_get (form request) (lit "text") [])))))
    as [[ve|e]|payload].
  { eexists. repeat split. }
  { eexists. repeat split. }
  exists payload. destruct H as [H1 H2]. repeat split; assumption.
Qed.

Lemma verified_trace_no_query (request : Request) :
  existsb is_query (verified_trace request) = false.
Proof.
  unfold verified_trace. destruct SLACK_SIGNING_SECRET; reflexivity.
Qed.

(** C5. A command other than [/getinfo] and [/checkstatus] is answered by
    the router, for every parameter, with an ephemeral text saying that the
    command is not recognized: the router returns (it does not raise) after
    two log records and no query.  Sent in an authenticated request with a
    single-token parameter, such a command makes the handler return that
    payload as a dict, which is served with status 200. *)
Theorem unknown_command_soft_failure (command parameter : pystr) :
  command <> lit "/getinfo" ->
  command <> lit "/checkstatus" ->
  menu_controller command parameter
  = ([Log INFO 141; Log WARNING 152],
     inr (ephemeral_text (lit "Command '" ++ command ++ lit "' not recognized.")))
  /\ forall request,
       authenticated request ->
       command_of request = command ->
       command <> [] ->
       parameter_of request <> [] ->
       (List.length (py_split (parameter_of request)) <= 1)%nat ->
       request_handler request
       = (verified_trace request
          ++ [Log INFO 92; Log INFO 93; Log INFO 115; Log INFO 141; Log WARNING 152],
          inr (RDict (ephemeral_text
                        (lit "Command '" ++ command ++ lit "' not recognized.")))).
Proof.
  intros H1 H2. split; [now apply menu_controller_unknown|].
  intros request Ha Hcmd Hne Hpar Hlen. subst command.
  rewrite (handler_routed Ha Hne Hpar Hlen).
  rewrite (menu_controller_unknown _ H1 H2).
  simpl. rewrite <- app_assoc. reflexivity.
Qed.

(** C6 (amended). An authenticated request that names a command and whose
    text field is empty once stripped, or holds more than one
    whitespace-delimited token, is answered with the ephemeral usage example
    that echoes the command; the handler performs no query for it. *)
Theorem usage_error_before_lookup (request : Request) :
  authenticated request ->
  command_of request <> [] ->
  parameter_of request = []
  \/ (1 < List.length (py_split (form_get (form request) (lit "text") [])))%nat ->
  request_handler request
  = (verified_trace request ++ [Log INFO 92; Log INFO 93; Log INFO 107],
     inr (RDict (ephemeral_text
       (lit "Error: A single parameter was expected. Example: "
        ++ command_of request ++ lit " my-resource"))))
  /\ existsb is_query (trace_of (request_handler request)) = false.
Proof.
  intros Ha Hcmd Hpar.
  assert (E : request_handler request
              = (verified_trace request ++ [Log INFO 92; Log INFO 93; Log INFO 107],
                 inr (RDict (ephemeral_text
                   (lit "Error: A single parameter was expected. Example: "
                    ++ command_of request ++ lit " my-resource"))))).
  { apply handler_usage; try assumption.
    destruct Hpar as [Hpar|Hpar]; [now left|right].
    unfold parameter_of. now rewrite py_split_strip. }
  split; [exact E|].
  rewrite E. unfold trace_of, fst.
  rewrite existsb_app, verified_trace_no_query. reflexivity.
Qed.

(** C7. A request whose [Content-Type] is not exactly
    [application/x-www-form-urlencoded] (or is missing) is answered with the
    tuple of a plain text and the status 400, after two log records; every
    other request is answered with a dict that is a well-formed chat
    payload. *)
Theorem content_type_rejection (request : Request) :
  (content_type request <> Some CONTENT_TYPE_FORM ->
   request_handler request
   = ([Log WARNING 119; Log DEBUG 120],
      inr (RTuple (lit "This request does not appear to be from Slack (incorrect Content-Type).") 400)))
  /\ (content_type request = Some CONTENT_TYPE_FORM ->
      exists payload,
        result_of (request_handler request) = inr (RDict payload)
        /\ chat_payload payload = true).
Proof.
  split.
  - apply handler_wrong_content_type.
  - intros H. destruct (handler_form_reply request H) as (payload & E & C & _).
    now exists payload.
Qed.

Lemma is_ephemeral_not_in_channel (payload : json) :
  is_ephemeral payload ->
  dict_get "response_type" payload <> Some (JStr (lit "in_channel")).
Proof. unfold is_ephemeral. intros -> H. discriminate H. Qed.

(** C9. Every chat payload the function returns has the response type
    "ephemeral", never "in_channel": this holds for the handler on every
    request, and for the router and the two lookups on every command and
    parameter, whatever the signature check and the queries answer. *)
Theorem always_ephemeral :
  (forall request payload,
     result_of (request_handler request) = inr (RDict payload) ->
     is_ephemeral payload
     /\ dict_get "response_type" payload <> Some (JStr (lit "in_channel")))
  /\ (forall command parameter payload,
        result_of (menu_controller command parameter) = inr payload ->
        is_ephemeral payload)
  /\ (forall resource_name payload,
        result_of (get_resource_info resource_name) = inr payload ->
        is_ephemeral payload)
  /\ (forall resource_name payload,
        result_of (check_resource_status resource_name) = inr payload ->
        is_ephemeral payload).
Proof.
  assert (Hh : forall request payload,
             result_of (request_handler request) = inr (RDict payload) ->
             is_ephemeral payload).
  { intros request payload H.
    destruct (option_eq_form (content_type request)) as [Hct|Hct].
    - destruct (handler_form_reply request Hct) as (p & E & _ & He).
      rewrite E in H. injection H as <-. exact He.
    - rewrite (handler_wrong_content_type request Hct) in H. discriminate H. }
  split; [|split; [|split]].
  - intros request payload H. split; [now apply Hh with request|].
    apply is_ephemeral_not_in_channel. now apply Hh with request.
  - intros command parameter payload H.
    pose proof (menu_controller_reply command parameter) as R.
    unfold reply_ok in R. rewrite H in R. apply R.
  - intros resource_name payload H.
    pose proof (get_resource_info_reply resource_name) as R.
    unfold reply_ok in R. rewrite H in R. apply R.
  - intros resource_name payload H.
    pose proof (check_resource_status_reply resource_name) as R.
    unfold reply_ok in R. rewrite H in R. apply R.
Qed.

(** ** Queries of a request *)

Lemma trace_bind {A B} (m : M A) (k : A -> M B) :
  trace_of (bind m k)
  = trace_of m
    ++ match result_of m with
       | inl e => []
       | inr a => trace_of (k a)
       end.
Proof.
  destruct m as [tr [e|a]]; simpl; [now rewrite app_nil_r|].
  destruct (k a); reflexivity.
Qed.

Lemma trace_try_except {A} (body : M A) (h1 h2 : pystr -> M A) :
  trace_of (try_except body h1 h2)
  = trace_of body
    ++ match result_of body with
       | inl (ValueError ve) => trace_of (h1 ve)
       | inl (OtherException e) => trace_of (h2 e)
       | inr a => []
       end.
Proof.
  destruct body as [tr [[ve|e]|a]]; simpl.
  - destruct (h1 ve); reflexivity.
  - destruct (h2 e); reflexivity.
  - now rewrite app_nil_r.
Qed.

Lemma queries_bind {A B} (m : M A) (k : A -> M B) :
  queries (bind m k)
  = queries m
    ++ match result_of m with
       | inl e => []
       | inr a => queries (k a)
       end.
Proof.
  unfold queries. rewrite trace_bind, filter_app.
  destruct (result_of m); reflexivity.
Qed.

Lemma verify_outcome (request : Request) :
  queries (verify_slack_signature request) = []
  /\ match result_of (verify_slack_signature request) with
     | inr b => b = true /\ signature_accepted request
     | inl e => ~ signature_accepted request
     end.
Proof.
  unfold verify_slack_signature, signature_accepted.
  destruct SLACK_SIGNING_SECRET as [[|c secret]|].
  - split; [reflexivity|]. simpl. intros H. exact H.
  - destruct (is_valid (c :: secret) (data request)
                (header_or (slack_timestamp request) [])
                (header_or (slack_signature request) [])) as [e|[|]];
      (split; [reflexivity|]); simpl;
      first [ split; reflexivity | discriminate ].
  - split; [reflexivity|]. simpl. intros H. exact H.
Qed.

Lemma queries_get_resource_info (resource_name : pystr) :
  queries (get_resource_info resource_name)
  = match client_error with
    | None => [Query INSTANCES_TABLE resource_name]
    | Some _ => []
    end.
Proof.
  unfold get_resource_info, bigquery_Client, run_query.
  destruct client_error as [e|]; [reflexivity|].
  destruct (query_instances resource_name) as [e|[|row rows]]; try reflexivity.
  cbn -[fold_left pop_last_divider lit].
  unfold pop_last_divider.
  destruct (rev (fold_left append_row (row :: rows) [])) as [|b bs]; [reflexivity|].
  destruct (dict_get "type" b) as [ty|]; [|reflexivity].
  destruct (json_is_str ty (lit "divider")); reflexivity.
Qed.

Lemma queries_check_resource_status (resource_name : pystr) :
  queries (check_resource_status resource_name)
  = match client_error with
    | None => [Query STATUS_CHECK_TABLE resource_name]
    | Some _ => []
    end.
Proof.
  unfold check_resource_status, bigquery_Client, run_query.
  destruct client_error as [e|]; [reflexivity|].
  destruct (query_status resource_name) as [e|[|row rows]]; try reflexivity.
  cbn -[lit emoji_and_message full_response_text status_value].
  destruct (emoji_and_message (status_value row) row resource_name).
  reflexivity.
Qed.

Lemma queries_menu_controller (command parameter : pystr) :
  queries (menu_controller command parameter)
  = if pystr_eqb command (lit "/getinfo")
    then queries (get_resource_info parameter)
    else if pystr_eqb command (lit "/checkstatus")
         then queries (check_resource_status parameter)
         else [].
Proof.
  unfold menu_controller. rewrite queries_bind.
  change (queries (logging INFO 141)) with (@nil event).
  change (result_of (logging INFO 141)) with (@inr exn unit tt). cbv iota beta.
  destruct (pystr_eqb command (lit "/getinfo")).
  { rewrite queries_bind.
    destruct (result_of (get_resource_info parameter));
      simpl; now rewrite app_nil_r. }
  destruct (pystr_eqb command (lit "/checkstatus")).
  { rewrite queries_bind.
    destruct (result_of (check_resource_status parameter));
      simpl; now rewrite app_nil_r. }
  reflexivity.
Qed.

(** The queries of a request are those of the router, and there are none
    unless the request is form-encoded, passes the signature check, names a
    command and carries a single-token text. *)
Lemma queries_request_handler (request : Request) :
  queries (request_handler request)
  = if header_is (content_type request) CONTENT_TYPE_FORM then
      match result_of (verify_slack_signature request) with
      | inl _ => []
      | inr _ =>
          match command_of request with
          | [] => []
          | _ =>
              if match parameter_of request with [] => true | _ => false end
                 || (1 <? List.length (py_split (parameter_of request)))%nat
              then []
              else queries (menu_controller (command_of request)
                              (sanitize (parameter_of request)))
          end
      end
    else [].
Proof.
  unfold request_handler, command_of, parameter_of.
  destruct (header_is (content_type request) CONTENT_TYPE_FORM); [|reflexivity].
  destruct (verify_outcome request) as [Hq _].
  unfold queries in *. rewrite trace_try_except, filter_app, trace_bind, filter_app, Hq.
  rewrite result_bind.
  destruct (result_of (verify_slack_signature request)) as [[ve|e]|b];
    try reflexivity.
  cbv iota beta.
  destruct (py_strip (form_get (form request) (lit "command") [])) as [|c cmd];
    [reflexivity|].
  destruct (match py_strip (form_get (form request) (lit "text") []) with
            | [] => true | _ => false end
            || (1 <? List.length
                  (py_split (py_strip (form_get (form request) (lit "text") []))))%nat);
    [reflexivity|].
  set (m := menu_controller (c :: cmd)
              (sanitize (py_strip (form_get (form request) (lit "text") [])))).
  repeat (rewrite ?trace_bind, ?result_bind;
          change (result_of (logging INFO 92)) with (@inr exn unit tt);
          change (result_of (logging INFO 93)) with (@inr exn unit tt);
          change (result_of (logging INFO 115)) with (@inr exn unit tt);
          cbv iota beta).
  destruct (result_of m) as [[ve|e]|payload]; simpl;
    rewrite ?filter_app; simpl; rewrite ?app_nil_r; reflexivity.
Qed.

(** X1. The data store is only queried for an authenticated request: if the
    handler issues any query, then the request is form-encoded, its
    signature was accepted under a non-empty secret, it names a command and
    its text is a single token. *)
Theorem queries_need_authentication (request : Request) :
  queries (request_handler request) <> [] ->
  authenticated request
  /\ command_of request <> []
  /\ parameter_of request <> []
  /\ (List.length (py_split (parameter_of request)) <= 1)%nat.
Proof.
  rewrite queries_request_handler. intros H.
  destruct (header_is (content_type request) CONTENT_TYPE_FORM) eqn:Hct;
    [|congruence].
  apply header_is_form in Hct.
  destruct (verify_outcome request) as [_ Hv].
  destruct (result_of (verify_slack_signature request)) as [e|b]; [congruence|].
  destruct Hv as [_ Hs].
  destruct (command_of request) as [|c cmd]; [congruence|].
  destruct (parameter_of request) as [|p ps] eqn:Hp; [simpl in H; congruence|].
  simpl orb in H.
  destruct (1 <? List.length (py_split (p :: ps)))%nat eqn:Hl; [congruence|].
  apply Nat.ltb_ge in Hl.
  repeat split; try assumption; discriminate.
Qed.

Lemma sanitize_lower_class (x : pystr) :
  Forall (fun c => lower_class c = true) (sanitize x).
Proof.
  rewrite sanitize_eq. apply Forall_forall. intros c Hc.
  apply in_map_iff in Hc as (c0 & <- & Hc0).
  apply filter_In in Hc0 as [_ Hc0]. now apply ascii_lower_class.
Qed.

Lemma In_queries {A} (m : M A) (t : table) (name : pystr) :
  In (Query t name) (trace_of m) <-> In (Query t name) (queries m).
Proof.
  unfold queries. rewrite filter_In. simpl. split.
  - intros H. split; [exact H|reflexivity].
  - intros [H _]. exact H.
Qed.

(** X2. A request leads to at most one query.  Its table is the one of the
    command ([/getinfo]: instances, [/checkstatus]: status checks), and the
    value bound to [@resource_name] is the sanitised text, made only of
    characters of [[a-z0-9_-]]. *)
Theorem query_is_sanitized (request : Request) :
  (List.length (queries (request_handler request)) <= 1)%nat
  /\ forall t name,
       In (Query t name) (trace_of (request_handler request)) ->
       name = sanitize (parameter_of request)
       /\ Forall (fun c => lower_class c = true) name
       /\ (t = INSTANCES_TABLE /\ command_of request = lit "/getinfo"
           \/ t = STATUS_CHECK_TABLE /\ command_of request = lit "/checkstatus").
Proof.
  assert (Q : queries (request_handler request) = []
              \/ (queries (request_handler request)
                  = [Query INSTANCES_TABLE (sanitize (parameter_of request))]
                  /\ command_of request = lit "/getinfo")
              \/ (queries (request_handler request)
                  = [Query STATUS_CHECK_TABLE (sanitize (parameter_of request))]
                  /\ command_of request = lit "/checkstatus")).
  { rewrite queries_request_handler.
    destruct (header_is (content_type request) CONTENT_TYPE_FORM); [|now left].
    destruct (result_of (verify_slack_signature request)); [now left|].
    destruct (command_of request) as [|c cmd] eqn:Hc; [now left|].
    destruct (match parameter_of request with [] => true | _ => false end
              || (1 <? List.length (py_split (parameter_of request)))%nat);
      [now left|].
    rewrite queries_menu_controller.
    destruct (pystr_eqb (c :: cmd) (lit "/getinfo")) eqn:E1.
    { apply pystr_eqb_eq in E1. rewrite queries_get_resource_info.
      destruct client_error; [now left|right; left; now split]. }
    destruct (pystr_eqb (c :: cmd) (lit "/checkstatus")) eqn:E2; [|now left].
    apply pystr_eqb_eq in E2. rewrite queries_check_resource_status.
    destruct client_error; [now left|right; right; now split]. }
  split.
  - destruct Q as [-> | [[-> _] | [-> _]]]; simpl; lia.
  - intros t name Hin. apply In_queries in Hin.
    destruct Q as [Q | [[Q Hc] | [Q Hc]]]; rewrite Q in Hin; simpl in Hin.
    + contradiction.
    + destruct Hin as [Hin|[]]. injection Hin as <- <-.
      split; [reflexivity|]. split; [apply sanitize_lower_class|]. left. now split.
    + destruct Hin as [Hin|[]]. injection Hin as <- <-.
      split; [reflexivity|]. split; [apply sanitize_lower_class|]. right. now split.
Qed.

Lemma handler_rejected (request : Request) (tr : list event) (e : exn) :
  content_type request = Some CONTENT_TYPE_FORM ->
  verify_slack_signature request = (tr, inl e) ->
  request_handler request
  = (tr ++ fst (caught (inl e)), inr (RDict (snd (caught (inl e))))).
Proof.
  intros Hct Hv. apply header_is_form in Hct.
  unfold request_handler. rewrite Hct, Hv. destruct e; reflexivity.
Qed.

(** X3. A form-encoded request whose signature the verifier does not accept
    is answered with the ephemeral text
    "Validation Error: Invalid Slack signature."; the form is not read and
    nothing is routed or queried. *)
Theorem invalid_signature_rejected (request : Request) (c : codepoint)
    (secret : pystr) :
  content_type request = Some CONTENT_TYPE_FORM ->
  SLACK_SIGNING_SECRET = Some (c :: secret) ->
  is_valid (c :: secret) (data request)
    (header_or (slack_timestamp request) [])
    (header_or (slack_signature request) []) = inr false ->
  request_handler request
  = ([Log DEBUG 343;
      IsValid (c :: secret) (data request)
        (header_or (slack_timestamp request) [])
        (header_or (slack_signature request) []);
      Log ERROR 347; Log ERROR 124],
     inr (RDict (ephemeral_text
                   (lit "Validation Error: " ++ lit "Invalid Slack signature.")))).
Proof.
  intros Hct Hs Hv.
  rewrite (@handler_rejected request
             [Log DEBUG 343;
              IsValid (c :: secret) (data request)
                (header_or (slack_timestamp request) [])
                (header_or (slack_signature request) []);
              Log ERROR 347]
             (ValueError (lit "Invalid Slack signature.")) Hct).
  - reflexivity.
  - unfold verify_slack_signature. rewrite Hs. simpl. rewrite Hv. reflexivity.
Qed.

(** X4. When the verifier itself raises (it does on a timestamp that is not
    an integer), the request is answered without routing: a [ValueError] as
    "Validation Error: " followed by its message, any other exception as the
    generic apology, which does not show the message. *)
Theorem verifier_exception_reply (request : Request) (c : codepoint)
    (secret : pystr) (e : exn) :
  content_type request = Some CONTENT_TYPE_FORM ->
  SLACK_SIGNING_SECRET = Some (c :: secret) ->
  is_valid (c :: secret) (data request)
    (header_or (slack_timestamp request) [])
    (header_or (slack_signature request) []) = inl e ->
  request_handler request
  = ([Log DEBUG 343;
      IsValid (c :: secret) (data request)
        (header_or (slack_timestamp request) [])
        (header_or (slack_signature request) [])]
     ++ match e with
        | ValueError _ => [Log ERROR 124]
        | OtherException _ => [Log ERROR 131]
        end,
     inr (RDict match e with
                | ValueError msg => ephemeral_text (lit "Validation Error: " ++ msg)
                | OtherException _ =>
                    ephemeral_text
                      (lit "Sorry, an error occurred while processing your request. Please try again later.")
                end)).
Proof.
  intros Hct Hs Hv.
  rewrite (@handler_rejected request
             [Log DEBUG 343;
              IsValid (c :: secret) (data request)
                (header_or (slack_timestamp request) [])
                (header_or (slack_signature request) [])]
             e Hct).
  - destruct e; reflexivity.
  - unfold verify_slack_signature. rewrite Hs. simpl. rewrite Hv. reflexivity.
Qed.

(** X5. [verify_slack_signature] never returns a false value: it returns
    [True] exactly when a non-empty secret is configured and the verifier
    accepts the request, and raises otherwise; it issues no query. *)
Theorem verify_returns_true_or_raises (request : Request) :
  (signature_accepted request
   <-> result_of (verify_slack_signature request) = inr true)
  /\ result_of (verify_slack_signature request) <> inr false
  /\ queries (verify_slack_signature request) = [].
Proof.
  destruct (verify_outcome request) as [Hq Hv]. repeat split.
  - intros Ha. now rewrite (verify_accepted request Ha).
  - intros E. rewrite E in Hv. apply Hv.
  - intros E. rewrite E in Hv. destruct Hv. discriminate.
  - exact Hq.
Qed.

(** X6. An authenticated request whose command is missing or blank is
    answered with "Error: No command was provided.", whatever its text
    holds, and nothing is queried. *)
Theorem missing_command_reported (request : Request) :
  authenticated request ->
  command_of request = [] ->
  request_handler request
  = (verified_trace request ++ [Log INFO 92; Log INFO 93; Log WARNING 100],
     inr (RDict (ephemeral_text (lit "Error: No command was provided."))))
  /\ queries (request_handler request) = [].
Proof.
  intros [Hct Hsig] Hcmd.
  assert (E : request_handler request
              = (verified_trace request ++ [Log INFO 92; Log INFO 93; Log WARNING 100],
                 inr (RDict (ephemeral_text (lit "Error: No command was provided."))))).
  { pose proof Hct as Hct'. apply header_is_form in Hct'.
    unfold request_handler. rewrite Hct', (verify_accepted _ Hsig).
    unfold command_of in Hcmd. rewrite Hcmd. reflexivity. }
  split; [exact E|].
  rewrite E. unfold queries, trace_of, fst. rewrite filter_app.
  assert (V : filter is_query (verified_trace request) = []).
  { unfold verified_trace. destruct SLACK_SIGNING_SECRET; reflexivity. }
  rewrite V. reflexivity.
Qed.

Lemma menu_controller_getinfo (parameter : pystr) :
  menu_controller (lit "/getinfo") parameter
  = ([Log INFO 141] ++ trace_of (get_resource_info parameter),
     result_of (get_resource_info parameter)).
Proof.
  unfold menu_controller. rewrite pystr_eqb_refl.
  destruct (get_resource_info parameter) as [tr [e|payload]]; simpl;
    rewrite ?app_nil_r; reflexivity.
Qed.

Lemma menu_controller_checkstatus (parameter : pystr) :
  menu_controller (lit "/checkstatus") parameter
  = ([Log INFO 141] ++ trace_of (check_resource_status parameter),
     result_of (check_resource_status parameter)).
Proof.
  unfold menu_controller.
  change (pystr_eqb (lit "/checkstatus") (lit "/getinfo")) with false.
  rewrite pystr_eqb_refl.
  destruct (check_resource_status parameter) as [tr [e|payload]]; simpl;
    rewrite ?app_nil_r; reflexivity.
Qed.

(** The reply to a request that reaches the router, from what the router
    does. *)
Lemma handler_routed_reply (request : Request) (tr : list event) (r : exn + json) :
  authenticated request ->
  command_of request <> [] ->
  parameter_of request <> [] ->
  (List.length (py_split (parameter_of request)) <= 1)%nat ->
  menu_controller (command_of request) (sanitize (parameter_of request)) = (tr, r) ->
  request_handler request
  = (verified_trace request ++ [Log INFO 92; Log INFO 93; Log INFO 115]
     ++ tr ++ fst (caught r),
     inr (RDict (snd (caught r)))).
Proof.
  intros Ha Hc Hp Hl Hm. rewrite (handler_routed Ha Hc Hp Hl), Hm.
  destruct r as [[ve|e]|payload]; simpl; rewrite <- ?app_assoc; simpl;
    rewrite ?app_nil_r; reflexivity.
Qed.

(** X7. For an authenticated [/getinfo] or [/checkstatus] request with a
    single-token text, the handler is the lookup of the command run on the
    sanitised text: its trace is the verification, three log records, the
    router's record and the lookup's own events, and its reply is the
    lookup's payload, or the reply of the [except] clause that catches what
    the lookup raises. *)
Theorem routed_request_runs_lookup (request : Request) (lookup : M json) :
  authenticated request ->
  parameter_of request <> [] ->
  (List.length (py_split (parameter_of request)) <= 1)%nat ->
  command_of request = lit "/getinfo"
  /\ lookup = get_resource_info (sanitize (parameter_of request))
  \/ command_of request = lit "/checkstatus"
     /\ lookup = check_resource_status (sanitize (parameter_of request)) ->
  request_handler request
  = (verified_trace request
     ++ [Log INFO 92; Log INFO 93; Log INFO 115; Log INFO 141]
     ++ trace_of lookup ++ fst (caught (result_of lookup)),
     inr (RDict (snd (caught (result_of lookup))))).
Proof.
  intros Ha Hp Hl [[Hc ->] | [Hc ->]].
  - assert (Hne : command_of request <> []) by (rewrite Hc; discriminate).
    rewrite (@handler_routed_reply request _ _ Ha Hne Hp Hl
               (eq_trans (f_equal (fun c => menu_controller c _) Hc)
                         (menu_controller_getinfo _))).
    rewrite <- !app_assoc. reflexivity.
  - assert (Hne : command_of request <> []) by (rewrite Hc; discriminate).
    rewrite (@handler_routed_reply request _ _ Ha Hne Hp Hl
               (eq_trans (f_equal (fun c => menu_controller c _) Hc)
                         (menu_controller_checkstatus _))).
    rewrite <- !app_assoc. reflexivity.
Qed.

Lemma get_resource_info_raises (resource_name : pystr) (e : exn) :
  client_error = Some e
  \/ client_error = None /\ query_instances resource_name = inl e ->
  result_of (get_resource_info resource_name) = inl e
  /\ queries (get_resource_info resource_name)
     = match client_error with
       | None => [Query INSTANCES_TABLE resource_name]
       | Some _ => []
       end.
Proof.
  intros H. split; [|apply queries_get_resource_info].
  unfold get_resource_info, bigquery_Client, run_query.
  destruct H as [-> | [-> ->]]; reflexivity.
Qed.

Lemma check_resource_status_raises (resource_name : pystr) (e : exn) :
  client_error = Some e
  \/ client_error = None /\ query_status resource_name = inl e ->
  result_of (check_resource_status resource_name) = inl e
  /\ queries (check_resource_status resource_name)
     = match client_error with
       | None => [Query STATUS_CHECK_TABLE resource_name]
       | Some _ => []
       end.
Proof.
  intros H. split; [|apply queries_check_resource_status].
  unfold check_resource_status, bigquery_Client, run_query.
  destruct H as [-> | [-> ->]]; reflexivity.
Qed.

(** X8. When the lookup of an authenticated [/getinfo] or [/checkstatus]
    request fails, because the client cannot be created or because the query
    raises, the caller still gets an ephemeral payload: the generic apology,
    without the message of the failure, unless the failure is a
    [ValueError], whose message is sent after "Validation Error: ". *)
Theorem lookup_failure_reply (request : Request) (e : exn) :
  authenticated request ->
  parameter_of request <> [] ->
  (List.length (py_split (parameter_of request)) <= 1)%nat ->
  command_of request = lit "/getinfo"
  /\ (client_error = Some e
      \/ client_error = None
         /\ query_instances (sanitize (parameter_of request)) = inl e)
  \/ command_of request = lit "/checkstatus"
     /\ (client_error = Some e
         \/ client_error = None
            /\ query_status (sanitize (parameter_of request)) = inl e) ->
  result_of (request_handler request)
  = inr (RDict match e with
               | ValueError msg => ephemeral_text (lit "Validation Error: " ++ msg)
               | OtherException _ =>
                   ephemeral_text
                     (lit "Sorry, an error occurred while processing your request. Please try again later.")
               end).
Proof.
  intros Ha Hp Hl H.
  assert (R : exists tr,
             menu_controller (command_of request) (sanitize (parameter_of request))
             = (tr, inl e)).
  { destruct H as [[Hc H] | [Hc H]]; rewrite Hc.
    - rewrite menu_controller_getinfo.
      destruct (get_resource_info_raises H) as [-> _]. eexists. reflexivity.
    - rewrite menu_controller_checkstatus.
      destruct (check_resource_status_raises H) as [-> _]. eexists. reflexivity. }
  destruct R as [tr R].
  assert (Hne : command_of request <> [])
    by (destruct H as [[-> _] | [-> _]]; discriminate).
  rewrite (handler_routed_reply Ha Hne Hp Hl R).
  destruct e; reflexivity.
Qed.

Lemma sanitize_nothing_allowed (x : pystr) :
  Forall (fun c => allowed c = false) x -> sanitize x = [].
Proof.
  intros H. rewrite sanitize_eq.
  induction H as [|c s Hc _ IH]; simpl; [reflexivity|]. now rewrite Hc.
Qed.

(** X9. The text is not checked again after sanitising: an authenticated
    [/getinfo] request whose single token holds no character of
    [[A-Za-z0-9_-]] still queries the instances table, with the empty
    string as the resource name. *)
Theorem empty_sanitized_parameter_is_queried (request : Request) :
  authenticated request ->
  command_of request = lit "/getinfo" ->
  parameter_of request <> [] ->
  (List.length (py_split (parameter_of request)) <= 1)%nat ->
  Forall (fun c => allowed c = false) (parameter_of request) ->
  client_error = None ->
  sanitize (parameter_of request) = []
  /\ queries (request_handler request) = [Query INSTANCES_TABLE []].
Proof.
  intros [Hct Hs] Hc Hp Hl Hf Hce.
  assert (E : sanitize (parameter_of request) = []).
  { now apply sanitize_nothing_allowed. }
  split; [exact E|].
  rewrite queries_request_handler.
  apply header_is_form in Hct. rewrite Hct.
  rewrite (verify_accepted _ Hs). unfold result_of at 1, snd.
  rewrite Hc at 1.
  change (lit "/getinfo") with (47%N :: lit "getinfo") at 1. cbv iota.
  destruct (parameter_of request) as [|p ps] eqn:Hpe; [congruence|].
  simpl orb. apply Nat.ltb_ge in Hl. rewrite Hl.
  rewrite queries_menu_controller, Hc, pystr_eqb_refl, queries_get_resource_info.
  rewrite Hce, E. reflexivity.
Qed.

(** ** More on sanitising *)

Lemma sanitize_of_class (x : pystr) :
  Forall (fun c => lower_class c = true) x -> sanitize x = x.
Proof.
  intros H. rewrite sanitize_eq.
  induction H as [|c s Hc _ IH]; simpl; [reflexivity|].
  destruct (lower_class_fixed c Hc) as [Ha Hl].
  rewrite Ha. simpl. now rewrite Hl, IH.
Qed.

(** X11. The names that pass through sanitising unchanged are exactly the
    strings over [[a-z0-9_-]]. *)
Theorem sanitize_fixed_points (x : pystr) :
  sanitize x = x <-> Forall (fun c => lower_class c = true) x.
Proof.
  split.
  - intros E. rewrite <- E. apply sanitize_lower_class.
  - apply sanitize_of_class.
Qed.

Lemma allowed_ascii_lower (c : codepoint) : allowed (ascii_lower c) = allowed c.
Proof.
  unfold ascii_lower. destruct (is_upper c) eqn:U; [|reflexivity].
  unfold allowed at 2. rewrite U, orb_true_r. simpl.
  unfold is_upper in U. apply andb_true_iff in U as [U1 U2].
  apply N.leb_le in U1, U2. unfold allowed.
  assert (L : is_lower (c + 32)%N = true).
  { unfold is_lower. apply andb_true_iff. split; apply N.leb_le; lia. }
  now rewrite L.
Qed.

Lemma sanitize_after_lower (x : pystr) :
  sanitize x = filter allowed (map ascii_lower x).
Proof.
  rewrite sanitize_eq. induction x as [|c x IH]; simpl; [reflexivity|].
  rewrite allowed_ascii_lower. destruct (allowed c); simpl; now rewrite IH.
Qed.

(** X12. Sanitising does not see the case of ASCII letters: two texts that
    agree up to that case give the same resource name, hence the same
    query. *)
Theorem sanitize_ignores_case (x y : pystr) :
  map ascii_lower x = map ascii_lower y -> sanitize x = sanitize y.
Proof.
  intros H. now rewrite !sanitize_after_lower, H.
Qed.

(** X13. Sanitising works character by character: it distributes over
    concatenation and never makes a text longer. *)
Theorem sanitize_app_length (x y : pystr) :
  sanitize (x ++ y) = sanitize x ++ sanitize y
  /\ (List.length (sanitize x) <= List.length x)%nat.
Proof.
  rewrite !sanitize_eq. split.
  - now rewrite filter_app, map_app.
  - rewrite length_map. induction x as [|c x IH]; simpl; [lia|].
    destruct (allowed c); simpl; lia.
Qed.

(** ** More on the status formatter *)

Lemma startswith_true (p s : pystr) :
  startswith p s = true -> exists post, s = p ++ post.
Proof.
  revert s. induction p as [|x p IH]; intros s H.
  - now exists s.
  - destruct s as [|y s]; [discriminate|]. simpl in H.
    apply andb_true_iff in H as [Hx Hp]. apply N.eqb_eq in Hx. subst y.
    destruct (IH s Hp) as [post ->]. now exists post.
Qed.

Lemma py_in_true (needle hay : pystr) :
  py_in needle hay = true -> exists pre post, hay = pre ++ needle ++ post.
Proof.
  induction hay as [|c hay IH]; rewrite py_in_unfold; intros H.
  - rewrite orb_false_r in H. apply startswith_true in H as [post E].
    now exists [], post.
  - apply orb_true_iff in H as [H|H].
    + apply startswith_true in H as [post E]. now exists [], post.
    + destruct (IH H) as (pre & post & ->). now exists (c :: pre), post.
Qed.

(** Containment up to ASCII case, decided on the lower-cased text. *)
Lemma contains_ci_iff (needle s : pystr) :
  contains_ci needle s <-> py_in needle (map ascii_lower s) = true.
Proof.
  split.
  - intros (pre & mid & post & -> & <-). rewrite !map_app. apply py_in_app.
  - intros H. apply py_in_true in H as (pre' & post' & E).
    apply map_eq_app in E as (pre & rest & -> & _ & E).
    apply map_eq_app in E as (mid & post & -> & Hm & _).
    now exists pre, mid, post.
Qed.

Lemma status_value_ascii (row : status_row) :
  current_status row <> VNone ->
  Forall (fun c => is_ascii c = true) (py_str (current_status row)) ->
  status_value row = map ascii_lower (py_str (current_status row)).
Proof.
  intros Hv Ha. unfold status_value, py_lower.
  rewrite <- (lower_from_ascii [] Ha).
  destruct (current_status row); congruence.
Qed.

(** X14. For a status written in ASCII that holds none of the favorable
    words "active", "ok" and "complete" (up to case), the tier is pending
    when it holds "pending" or "in progress" (up to case) and unfavorable
    otherwise. *)
Theorem status_tier_ascii (resource_name : pystr) (row : status_row)
    (rest : list status_row) :
  client_error = None ->
  query_status resource_name = inr (row :: rest) ->
  current_status row <> VNone ->
  Forall (fun c => is_ascii c = true) (py_str (current_status row)) ->
  ~ (contains_ci (lit "active") (py_str (current_status row))
     \/ contains_ci (lit "ok") (py_str (current_status row))
     \/ contains_ci (lit "complete") (py_str (current_status row))) ->
  (contains_ci (lit "pending") (py_str (current_status row))
   \/ contains_ci (lit "in progress") (py_str (current_status row)) ->
   result_of (check_resource_status resource_name)
   = inr (ephemeral_text (status_text Pending row resource_name)))
  /\ (~ (contains_ci (lit "pending") (py_str (current_status row))
         \/ contains_ci (lit "in progress") (py_str (current_status row))) ->
      result_of (check_resource_status resource_name)
      = inr (ephemeral_text (status_text Unfavorable row resource_name))).
Proof.
  intros Hc Hq Hv Ha Hnf. rewrite (check_resource_status_some Hc Hq).
  unfold result_of, snd. rewrite status_text_by_tier.
  rewrite (status_value_ascii row Hv Ha).
  set (s := py_str (current_status row)) in Hnf |- *.
  assert (F : py_in (lit "active") (map ascii_lower s)
              || py_in (lit "ok") (map ascii_lower s)
              || py_in (lit "complete") (map ascii_lower s) = false).
  { apply not_true_is_false. intros H. apply Hnf.
    rewrite !contains_ci_iff.
    apply orb_true_iff in H as [H|H]; [apply orb_true_iff in H as [H|H]|];
      [left|right; left|right; right]; exact H. }
  rewrite F. split.
  - intros H. rewrite !contains_ci_iff in H.
    destruct H as [-> | ->]; rewrite ?orb_true_r; reflexivity.
  - intros H.
    assert (P : py_in (lit "pending") (map ascii_lower s)
                || py_in (lit "in progress") (map ascii_lower s) = false).
    { apply not_true_is_false. intros H'. apply H.
      rewrite !contains_ci_iff. apply orb_true_iff in H'. exact H'. }
    now rewrite P.
Qed.

(** X15. A resource without a row in the status table is answered with the
    ephemeral text "Resource *name* was not found for status check." behind
    the question-mark glyph, after a single query. *)
Theorem status_not_found (resource_name : pystr) :
  client_error = None ->
  query_status resource_name = inr [] ->
  check_resource_status resource_name
  = ([Log INFO 279; Query STATUS_CHECK_TABLE resource_name; Log INFO 284],
     inr (JDict [("response_type", JStr (lit "ephemeral"));
                 ("text", JStr (QUESTION_MARK_SIGN ++ lit " Resource *"
                                ++ resource_name
                                ++ lit "* was not found for status check."))])).
Proof.
  intros Hc Hq. unfold check_resource_status, bigquery_Client, run_query.
  rewrite Hc, Hq. reflexivity.
Qed.

(** ** More on the resource formatter *)

Lemma filter_sections (rows : list instance_row) :
  filter (block_type_is (lit "section")) (flat_map blocks_of_row rows)
  = map (fun row => section_block (message_text row)) rows.
Proof.
  induction rows as [|row rows IH]; [reflexivity|].
  change (flat_map blocks_of_row (row :: rows))
    with (blocks_of_row row ++ flat_map blocks_of_row rows).
  rewrite filter_app, IH. unfold blocks_of_row.
  destruct (instance_console_url row) as [[|c url]|]; reflexivity.
Qed.

Lemma filter_dividers (rows : list instance_row) :
  List.length (filter is_divider (flat_map blocks_of_row rows)) = List.length rows.
Proof.
  induction rows as [|row rows IH]; [reflexivity|].
  change (flat_map blocks_of_row (row :: rows))
    with (blocks_of_row row ++ flat_map blocks_of_row rows).
  rewrite filter_app, length_app, IH. unfold blocks_of_row.
  destruct (instance_console_url row) as [[|c url]|]; reflexivity.
Qed.

Lemma length_blocks (rows : list instance_row) :
  List.length (flat_map blocks_of_row rows)
  = (2 * List.length rows + List.length (filter has_console_url rows))%nat.
Proof.
  induction rows as [|row rows IH]; [reflexivity|].
  change (flat_map blocks_of_row (row :: rows))
    with (blocks_of_row row ++ flat_map blocks_of_row rows).
  rewrite length_app, IH. unfold blocks_of_row. simpl filter.
  unfold has_console_url.
  destruct (instance_console_url row) as [[|c url]|]; simpl; lia.
Qed.

(** X16. For [n >= 1] rows of which [k] have a non-empty console URL, the
    reply holds [2n + k - 1] blocks: exactly one section per row, in the
    order of the rows, and [n - 1] dividers. *)
Theorem blocks_per_row (resource_name : pystr) (rows : list instance_row) :
  client_error = None ->
  query_instances resource_name = inr rows ->
  rows <> [] ->
  exists blocks,
    result_of (get_resource_info resource_name)
    = inr (JDict [("response_type", JStr (lit "ephemeral"));
                  ("blocks", JList blocks)])
    /\ filter (block_type_is (lit "section")) blocks
       = map (fun row => section_block (message_text row)) rows
    /\ List.length (filter is_divider blocks) = (List.length rows - 1)%nat
    /\ List.length blocks
       = (2 * List.length rows + List.length (filter has_console_url rows) - 1)%nat.
Proof.
  intros Hc Hq Hrows.
  destruct (get_resource_info_some Hc Hq Hrows) as (blocks & E & ->).
  exists blocks. split; [reflexivity|].
  pose proof (filter_sections rows) as S.
  pose proof (filter_dividers rows) as D.
  pose proof (length_blocks rows) as L.
  rewrite <- E in S, D, L. rewrite filter_app in S, D.
  rewrite length_app in D, L. simpl in S, D, L.
  rewrite app_nil_r in S. repeat split; [exact S|lia|lia].
Qed.

(** ** Both requests of a pair *)

(** X10. The reply depends on the form only through the stripped command
    and text: two authenticated requests whose command and text agree after
    [strip()], whatever their bodies and signatures, get the same reply and
    issue the same queries. *)
Theorem reply_ignores_outer_whitespace (r1 r2 : Request) :
  authenticated r1 ->
  authenticated r2 ->
  command_of r1 = command_of r2 ->
  parameter_of r1 = parameter_of r2 ->
  result_of (request_handler r1) = result_of (request_handler r2)
  /\ queries (request_handler r1) = queries (request_handler r2).
Proof.
  intros [Hct1 Hs1] [Hct2 Hs2] Hc Hp. split.
  - apply header_is_form in Hct1, Hct2.
    unfold request_handler. rewrite Hct1, Hct2.
    rewrite (verify_accepted _ Hs1), (verify_accepted _ Hs2).
    rewrite !result_try_except, !result_bind. unfold result_of at 2 4, snd.
    change (py_strip (form_get (form r1) (lit "command") [])) with (command_of r1).
    change (py_strip (form_get (form r2) (lit "command") [])) with (command_of r2).
    change (py_strip (form_get (form r1) (lit "text") [])) with (parameter_of r1).
    change (py_strip (form_get (form r2) (lit "text") [])) with (parameter_of r2).
    rewrite Hc, Hp. reflexivity.
  - apply header_is_form in Hct1, Hct2.
    rewrite !queries_request_handler, Hct1, Hct2.
    rewrite (verify_accepted _ Hs1), (verify_accepted _ Hs2), Hc, Hp.
    reflexivity.
Qed.

(** ** Timestamps *)







End CloudFunction.

(** ** The properties on concrete requests *)

Example strftime_sample : strftime sample_timestamp = lit "05-03-2024 at 07:09 UTC".
Proof. reflexivity. Qed.

Example split_two_tokens : py_split (lit "foo bar") = [lit "foo"; lit "bar"].
Proof. reflexivity. Qed.

Example strip_both_sides : py_strip (lit "  /getinfo ") = lit "/getinfo".
Proof. reflexivity. Qed.

Example sanitize_sample :
  sanitize lower_ascii_only (lit "Web_1-B; DROP") = lit "web_1-bdrop".
Proof. reflexivity. Qed.

Example getinfo_two_rows :
  request_handler lower_ascii_only SAMPLE_SECRET accept_signature None
    two_instances no_status (slack_request (lit "/getinfo") (lit "Web-1"))
  = ([Log DEBUG 343;
      IsValid (lit "s3cret") (lit "command=x&text=y") (lit "1700000000")
        (lit "v0=abcdef");
      Log INFO 350; Log INFO 92; Log INFO 93; Log INFO 115; Log INFO 141;
      Log INFO 190; Query INSTANCES_TABLE (lit "web-1"); Log INFO 201],
     inr (RDict (ephemeral_blocks
       [section_block (message_text (sample_instance (Some SAMPLE_URL)));
        actions_block [button SAMPLE_URL];
        divider_block;
        section_block (message_text (sample_instance None))]))).
Proof. reflexivity. Qed.

Example lookup_failure_is_an_apology :
  request_handler lower_ascii_only SAMPLE_SECRET accept_signature None
    failing_instances no_status (slack_request (lit "/getinfo") (lit "web-1"))
  = ([Log DEBUG 343;
      IsValid (lit "s3cret") (lit "command=x&text=y") (lit "1700000000")
        (lit "v0=abcdef");
      Log INFO 350; Log INFO 92; Log INFO 93; Log INFO 115; Log INFO 141;
      Log INFO 190; Query INSTANCES_TABLE (lit "web-1"); Log ERROR 131],
     inr (RDict (ephemeral_text
       (lit "Sorry, an error occurred while processing your request. Please try again later.")))).
Proof. reflexivity. Qed.

Example json_request_is_rejected :
  request_handler lower_ascii_only SAMPLE_SECRET accept_signature None
    two_instances no_status json_request
  = ([Log WARNING 119; Log DEBUG 120],
     inr (RTuple (lit "This request does not appear to be from Slack (incorrect Content-Type).") 400)).
Proof. reflexivity. Qed.

Lemma missing_secret_is_fatal_witness :
  content_type (slack_request (lit "/getinfo") (lit "web-1")) = Some CONTENT_TYPE_FORM
  /\ request_handler lower_ascii_only (Some []) accept_signature None
       two_instances no_status (slack_request (lit "/getinfo") (lit "web-1"))
     = ([Log ERROR 331; Log ERROR 124],
        inr (RDict (ephemeral_text
          (lit "Validation Error: Server configuration does not include Slack signing secret. Verification skipped (INSECURE).")))).
Proof.
  split; [reflexivity|].
  apply (@missing_secret_is_fatal lower_ascii_only (Some []) accept_signature None
           two_instances no_status (slack_request (lit "/getinfo") (lit "web-1"))).
  - reflexivity.
  - right. reflexivity.
Defined.

Lemma get_resource_info_blocks_witness :
  exists init last_block,
    result_of (get_resource_info None two_instances (lit "web-1"))
    = inr (ephemeral_blocks (init ++ [last_block]))
    /\ (init ++ [last_block]) ++ [divider_block]
       = flat_map blocks_of_row
           [sample_instance (Some SAMPLE_URL); sample_instance None]
    /\ is_divider last_block = false.
Proof.
  exact (@get_resource_info_blocks None two_instances (lit "web-1")
           [sample_instance (Some SAMPLE_URL); sample_instance None]
           eq_refl eq_refl).
Defined.

Lemma status_tier_examples_witness :
  result_of (check_resource_status lower_ascii_only None
               (one_status (VStr (lit "Active"))) (lit "web-1"))
  = inr (ephemeral_text
           (status_text Favorable (sample_status (VStr (lit "Active"))) (lit "web-1")))
  /\ result_of (check_resource_status lower_ascii_only None
                  (one_status (VStr (lit "Pending Review"))) (lit "web-1"))
     = inr (ephemeral_text
              (status_text Pending (sample_status (VStr (lit "Pending Review")))
                 (lit "web-1")))
  /\ result_of (check_resource_status lower_ascii_only None
                  (one_status (VStr (lit "Failed"))) (lit "web-1"))
     = inr (ephemeral_text
              (status_text Unfavorable (sample_status (VStr (lit "Failed")))
                 (lit "web-1"))).
Proof.
  split; [|split].
  - apply (@status_tier_examples lower_ascii_only None
             (one_status (VStr (lit "Active"))) (lit "web-1")
             (sample_status (VStr (lit "Active"))) [] Favorable eq_refl eq_refl).
    left. reflexivity.
  - apply (@status_tier_examples lower_ascii_only None
             (one_status (VStr (lit "Pending Review"))) (lit "web-1")
             (sample_status (VStr (lit "Pending Review"))) [] Pending eq_refl eq_refl).
    right. left. reflexivity.
  - apply (@status_tier_examples lower_ascii_only None
             (one_status (VStr (lit "Failed"))) (lit "web-1")
             (sample_status (VStr (lit "Failed"))) [] Unfavorable eq_refl eq_refl).
    right. right. left. reflexivity.
Defined.

Example active_reply_text :
  status_text Favorable (sample_status (VStr (lit "Active"))) (lit "web-1")
  = CHECK_MARK ++ lit " Resource *web-1* has a favorable status: *Active*."
    ++ NEWLINE ++ lit "   " ++ BULLET ++ lit " Details: _No additional details._"
    ++ NEWLINE ++ lit "   " ++ BULLET
    ++ lit " Last checked: _05-03-2024 at 07:09 UTC_".
Proof. reflexivity. Qed.

Lemma unknown_command_soft_failure_witness :
  menu_controller lower_ascii_only None two_instances no_status
    (lit "/foo") (lit "bar")
  = ([Log INFO 141; Log WARNING 152],
     inr (ephemeral_text (lit "Command '/foo' not recognized.")))
  /\ result_of (request_handler lower_ascii_only SAMPLE_SECRET accept_signature
                  None two_instances no_status
                  (slack_request (lit "/foo") (lit "bar")))
     = inr (RDict (ephemeral_text (lit "Command '/foo' not recognized."))).
Proof.
  assert (H1 : lit "/foo" <> lit "/getinfo") by discriminate.
  assert (H2 : lit "/foo" <> lit "/checkstatus") by discriminate.
  destruct (@unknown_command_soft_failure lower_ascii_only SAMPLE_SECRET
              accept_signature None two_instances no_status
              (lit "/foo") (lit "bar") H1 H2) as [A B].
  split; [exact A|].
  rewrite (B (slack_request (lit "/foo") (lit "bar"))).
  - reflexivity.
  - split; reflexivity.
  - reflexivity.
  - discriminate.
  - discriminate.
  - apply le_n.
Defined.

Lemma usage_error_before_lookup_witness :
  request_handler lower_ascii_only SAMPLE_SECRET accept_signature None
    two_instances no_status (slack_request (lit "/getinfo") (lit "foo bar"))
  = ([Log DEBUG 343;
      IsValid (lit "s3cret") (lit "command=x&text=y") (lit "1700000000")
        (lit "v0=abcdef");
      Log INFO 350; Log INFO 92; Log INFO 93; Log INFO 107],
     inr (RDict (ephemeral_text
       (lit "Error: A single parameter was expected. Example: /getinfo my-resource"))))
  /\ existsb is_query
       (trace_of (request_handler lower_ascii_only SAMPLE_SECRET accept_signature
                    None two_instances no_status
                    (slack_request (lit "/getinfo") (lit "foo bar")))) = false.
Proof.
  apply (@usage_error_before_lookup lower_ascii_only SAMPLE_SECRET accept_signature
           None two_instances no_status
           (slack_request (lit "/getinfo") (lit "foo bar"))).
  - split; reflexivity.
  - discriminate.
  - right. apply le_n.
Defined.

(** C6, as stated, fails on a request without a command: its text holds two
    tokens, and the reply is the missing-command error, not the usage
    example of any command. *)
Lemma usage_error_needs_a_command :
  authenticated SAMPLE_SECRET accept_signature request_without_command
  /\ (1 < List.length
            (py_split (form_get (form request_without_command) (lit "text") [])))%nat
  /\ result_of (request_handler lower_ascii_only SAMPLE_SECRET accept_signature
                  None two_instances no_status request_without_command)
     = inr (RDict (ephemeral_text (lit "Error: No command was provided.")))
  /\ forall command,
       result_of (request_handler lower_ascii_only SAMPLE_SECRET accept_signature
                    None two_instances no_status request_without_command)
       <> inr (RDict (ephemeral_text
                 (lit "Error: A single parameter was expected. Example: "
                  ++ command ++ lit " my-resource"))).
Proof.
  split; [split; reflexivity|]. split; [apply le_n|]. split; [reflexivity|].
  intros command H. vm_compute in H. discriminate H.
Qed.

Lemma favorable_tier_first_witness :
  result_of (check_resource_status lower_ascii_only None
               (one_status (VStr (lit "PENDING - ACTIVE"))) (lit "web-1"))
  = inr (ephemeral_text
           (status_text Favorable (sample_status (VStr (lit "PENDING - ACTIVE")))
              (lit "web-1")))
  /\ result_of (check_resource_status lower_ascii_only None
                  (one_status VNone) (lit "web-1"))
     = inr (ephemeral_text (status_text Unfavorable (sample_status VNone) (lit "web-1"))).
Proof.
  split.
  - apply (proj1 (@favorable_tier_first lower_ascii_only None
                    (one_status (VStr (lit "PENDING - ACTIVE"))) (lit "web-1")
                    (sample_status (VStr (lit "PENDING - ACTIVE"))) []
                    eq_refl eq_refl)).
    + discriminate.
    + left. exists (lit "PENDING - "), (lit "ACTIVE"), []. split; reflexivity.
  - apply (proj2 (@favorable_tier_first lower_ascii_only None
                    (one_status VNone) (lit "web-1") (sample_status VNone) []
                    eq_refl eq_refl)).
    reflexivity.
Defined.

(** C10, as stated, fails on its own example: "Pending activation" does not
    contain "active" (nor "ok", nor "complete"), so the second test classifies
    it, and the reply is in the pending tier with the hourglass glyph. *)
Lemma pending_activation_is_pending :
  py_in (lit "active") (map ascii_lower (lit "Pending activation")) = false
  /\ result_of (check_resource_status lower_ascii_only None
                  (one_status (VStr (lit "Pending activation"))) (lit "web-1"))
     = inr (ephemeral_text
              (HOURGLASS ++ lit " Resource *web-1* has status: *Pending activation*."
               ++ NEWLINE ++ lit "   " ++ BULLET
               ++ lit " Details: _No additional details._"
               ++ NEWLINE ++ lit "   " ++ BULLET
               ++ lit " Last checked: _05-03-2024 at 07:09 UTC_"))
  /\ result_of (check_resource_status lower_ascii_only None
                  (one_status (VStr (lit "Pending activation"))) (lit "web-1"))
     <> inr (ephemeral_text
               (status_text Favorable
                  (sample_status (VStr (lit "Pending activation"))) (lit "web-1"))).
Proof.
  split; [reflexivity|]. split; [reflexivity|].
  intros H. vm_compute in H. discriminate H.
Qed.


(** X17. [check_resource_status] reads the first row only: whatever rows
    follow it in the result, the events and the reply are the same. *)
Theorem status_uses_first_row
    (unicode_lower : pystr -> codepoint -> pystr -> pystr)
    (client_error : option exn)
    (query_status query_status' : pystr -> exn + list status_row)
    (resource_name : pystr) (row : status_row) (rest rest' : list status_row) :
  query_status resource_name = inr (row :: rest) ->
  query_status' resource_name = inr (row :: rest') ->
  check_resource_status unicode_lower client_error query_status resource_name
  = check_resource_status unicode_lower client_error query_status' resource_name.
Proof.
  intros H H'. destruct client_error as [e|].
  - reflexivity.
  - rewrite (@check_resource_status_some unicode_lower None query_status
               resource_name row rest eq_refl H).
    rewrite (@check_resource_status_some unicode_lower None query_status'
               resource_name row rest' eq_refl H').
    reflexivity.
Qed.

Lemma queries_need_authentication_witness :
  authenticated SAMPLE_SECRET accept_signature
    (slack_request (lit "/getinfo") (lit "Web-1"))
  /\ command_of (slack_request (lit "/getinfo") (lit "Web-1")) <> []
  /\ parameter_of (slack_request (lit "/getinfo") (lit "Web-1")) <> []
  /\ (List.length
        (py_split (parameter_of (slack_request (lit "/getinfo") (lit "Web-1"))))
      <= 1)%nat.
Proof.
  apply (@queries_need_authentication lower_ascii_only SAMPLE_SECRET
           accept_signature None two_instances no_status
           (slack_request (lit "/getinfo") (lit "Web-1"))).
  discriminate.
Defined.

Lemma invalid_signature_rejected_witness :
  request_handler lower_ascii_only SAMPLE_SECRET reject_signature None
    two_instances no_status (slack_request (lit "/getinfo") (lit "web-1"))
  = ([Log DEBUG 343;
      IsValid (lit "s3cret") (lit "command=x&text=y") (lit "1700000000")
        (lit "v0=abcdef");
      Log ERROR 347; Log ERROR 124],
     inr (RDict (ephemeral_text (lit "Validation Error: Invalid Slack signature.")))).
Proof.
  exact (@invalid_signature_rejected lower_ascii_only SAMPLE_SECRET
           reject_signature None two_instances no_status
           (slack_request (lit "/getinfo") (lit "web-1"))
           115%N (lit "3cret") eq_refl eq_refl eq_refl).
Defined.

Lemma verifier_exception_reply_witness :
  request_handler lower_ascii_only SAMPLE_SECRET raising_verifier None
    two_instances no_status (slack_request (lit "/getinfo") (lit "web-1"))
  = ([Log DEBUG 343;
      IsValid (lit "s3cret") (lit "command=x&text=y") (lit "1700000000")
        (lit "v0=abcdef");
      Log ERROR 124],
     inr (RDict (ephemeral_text
       (lit "Validation Error: invalid literal for int() with base 10: 'soon'")))).
Proof.
  exact (@verifier_exception_reply lower_ascii_only SAMPLE_SECRET
           raising_verifier None two_instances no_status
           (slack_request (lit "/getinfo") (lit "web-1"))
           115%N (lit "3cret")
           (ValueError (lit "invalid literal for int() with base 10: 'soon'"))
           eq_refl eq_refl eq_refl).
Defined.

Lemma missing_command_reported_witness :
  request_handler lower_ascii_only SAMPLE_SECRET accept_signature None
    two_instances no_status request_without_command
  = ([Log DEBUG 343;
      IsValid (lit "s3cret") (lit "text=foo+bar") (lit "1700000000")
        (lit "v0=abcdef");
      Log INFO 350; Log INFO 92; Log INFO 93; Log WARNING 100],
     inr (RDict (ephemeral_text (lit "Error: No command was provided."))))
  /\ queries (request_handler lower_ascii_only SAMPLE_SECRET accept_signature None
                two_instances no_status request_without_command) = [].
Proof.
  apply (@missing_command_reported lower_ascii_only SAMPLE_SECRET accept_signature
           None two_instances no_status request_without_command).
  - split; reflexivity.
  - reflexivity.
Defined.

Lemma routed_request_runs_lookup_witness :
  request_handler lower_ascii_only SAMPLE_SECRET accept_signature None
    two_instances two_statuses (slack_request (lit "/checkstatus") (lit "Web-1"))
  = ([Log DEBUG 343;
      IsValid (lit "s3cret") (lit "command=x&text=y") (lit "1700000000")
        (lit "v0=abcdef");
      Log INFO 350; Log INFO 92; Log INFO 93; Log INFO 115; Log INFO 141;
      Log INFO 279; Query STATUS_CHECK_TABLE (lit "web-1"); Log INFO 291],
     inr (RDict (ephemeral_text
       (status_text Pending (sample_status (VStr (lit "In Progress (50%)")))
          (lit "web-1"))))).
Proof.
  apply (@routed_request_runs_lookup lower_ascii_only SAMPLE_SECRET accept_signature
           None two_instances two_statuses
           (slack_request (lit "/checkstatus") (lit "Web-1"))
           (check_resource_status lower_ascii_only None two_statuses (lit "web-1"))).
  - split; reflexivity.
  - discriminate.
  - apply le_n.
  - right. split; reflexivity.
Defined.

Lemma lookup_failure_reply_witness :
  result_of (request_handler lower_ascii_only SAMPLE_SECRET accept_signature None
               failing_instances no_status
               (slack_request (lit "/getinfo") (lit "web-1")))
  = inr (RDict (ephemeral_text
      (lit "Sorry, an error occurred while processing your request. Please try again later."))).
Proof.
  apply (@lookup_failure_reply lower_ascii_only SAMPLE_SECRET accept_signature None
           failing_instances no_status
           (slack_request (lit "/getinfo") (lit "web-1"))
           (OtherException (lit "503 Service Unavailable"))).
  - split; reflexivity.
  - discriminate.
  - apply le_n.
  - left. split; [reflexivity|]. right. split; reflexivity.
Defined.

Lemma empty_sanitized_parameter_is_queried_witness :
  sanitize lower_ascii_only (parameter_of (slack_request (lit "/getinfo") (lit "???")))
  = []
  /\ queries (request_handler lower_ascii_only SAMPLE_SECRET accept_signature None
                two_instances no_status
                (slack_request (lit "/getinfo") (lit "???")))
     = [Query INSTANCES_TABLE []].
Proof.
  apply (@empty_sanitized_parameter_is_queried lower_ascii_only SAMPLE_SECRET
           accept_signature None two_instances no_status
           (slack_request (lit "/getinfo") (lit "???"))).
  - split; reflexivity.
  - reflexivity.
  - discriminate.
  - apply le_n.
  - repeat constructor.
  - reflexivity.
Defined.

Lemma sanitize_ignores_case_witness :
  sanitize lower_ascii_only (lit "Web-1") = sanitize lower_ascii_only (lit "WEB-1").
Proof.
  apply (@sanitize_ignores_case lower_ascii_only (lit "Web-1") (lit "WEB-1")).
  reflexivity.
Defined.

Lemma status_tier_ascii_witness :
  result_of (check_resource_status lower_ascii_only None two_statuses (lit "web-1"))
  = inr (ephemeral_text
           (status_text Pending (sample_status (VStr (lit "In Progress (50%)")))
              (lit "web-1"))).
Proof.
  apply (@status_tier_ascii lower_ascii_only None two_statuses (lit "web-1")
           (sample_status (VStr (lit "In Progress (50%)")))
           [sample_status (VStr (lit "Active"))] eq_refl eq_refl).
  - discriminate.
  - repeat constructor.
  - rewrite !contains_ci_iff. intros [H|[H|H]]; discriminate H.
  - right. exists (lit ""), (lit "In Progress"), (lit " (50%)"). split; reflexivity.
Defined.

Lemma status_not_found_witness :
  check_resource_status lower_ascii_only None no_status (lit "web-9")
  = ([Log INFO 279; Query STATUS_CHECK_TABLE (lit "web-9"); Log INFO 284],
     inr (ephemeral_text (QUESTION_MARK_SIGN
                          ++ lit " Resource *web-9* was not found for status check."))).
Proof.
  exact (@status_not_found lower_ascii_only None no_status (lit "web-9")
           eq_refl eq_refl).
Defined.

Lemma blocks_per_row_witness :
  exists blocks,
    result_of (get_resource_info None two_instances (lit "web-1"))
    = inr (ephemeral_blocks blocks)
    /\ filter (block_type_is (lit "section")) blocks
       = [section_block (message_text (sample_instance (Some SAMPLE_URL)));
          section_block (message_text (sample_instance None))]
    /\ List.length (filter is_divider blocks) = 1%nat
    /\ List.length blocks = 4%nat.
Proof.
  apply (@blocks_per_row None two_instances (lit "web-1")
           [sample_instance (Some SAMPLE_URL); sample_instance None]
           eq_refl eq_refl).
  discriminate.
Defined.

Lemma status_uses_first_row_witness :
  check_resource_status lower_ascii_only None two_statuses (lit "web-1")
  = check_resource_status lower_ascii_only None
      (one_status (VStr (lit "In Progress (50%)"))) (lit "web-1").
Proof.
  exact (@status_uses_first_row lower_ascii_only None two_statuses
           (one_status (VStr (lit "In Progress (50%)"))) (lit "web-1")
           (sample_status (VStr (lit "In Progress (50%)")))
           [sample_status (VStr (lit "Active"))] [] eq_refl eq_refl).
Defined.

Lemma reply_ignores_outer_whitespace_witness :
  result_of (request_handler lower_ascii_only SAMPLE_SECRET accept_signature None
               two_instances no_status plain_request)
  = result_of (request_handler lower_ascii_only SAMPLE_SECRET accept_signature None
                 two_instances no_status padded_request)
  /\ queries (request_handler lower_ascii_only SAMPLE_SECRET accept_signature None
                two_instances no_status plain_request)
     = queries (request_handler lower_ascii_only SAMPLE_SECRET accept_signature None
                  two_instances no_status padded_request).
Proof.
  apply (@reply_ignores_outer_whitespace lower_ascii_only SAMPLE_SECRET
           accept_signature None two_instances no_status
           plain_request padded_request).
  - split; reflexivity.
  - split; reflexivity.
  - reflexivity.
  - reflexivity.
Defined.

Example padded_request_has_other_events :
  trace_of (request_handler lower_ascii_only SAMPLE_SECRET accept_signature None
              two_instances no_status plain_request)
  <> trace_of (request_handler lower_ascii_only SAMPLE_SECRET accept_signature None
                 two_instances no_status padded_request).
Proof. discriminate. Qed.

